(** * munti-crime-map: the root layout and the style configuration

  The repository holds two pieces of executable source: the Tailwind
  configuration object exported by [tailwind.config.js] and the root layout
  component of [app/_layout.tsx].  Both are embedded here as the values
  they evaluate to, over a small model of JavaScript values, React
  elements and the render-time world a component can touch.  The guidance
  document contributes the two TypeScript interfaces it declares. *)

From Stdlib Require Import List String Ascii Bool Arith.
From Stdlib Require Import Floats.SpecFloat.
Import ListNotations.
Open Scope string_scope.
Open Scope list_scope.

Set Warnings "-register-all".

(** ** JavaScript values *)

Module Js.

(** Object literals keep their properties in source order; [VModule] is
    the value bound by [require(...)] of a package outside the
    repository. *)
Inductive value : Type :=
| VUndefined
| VNull
| VBool (b : bool)
| VNumber (x : spec_float)
| VString (s : string)
| VArray (items : list value)
| VObject (fields : list (string * value))
| VModule (specifier : string).

Definition props : Type := list (string * value).

(** Property lookup in a property list: [o[k]]. *)
Fixpoint lookup (k : string) (fields : props) : option value :=
  match fields with
  | [] => None
  | (k', v) :: rest => if String.eqb k k' then Some v else lookup k rest
  end.

(** [v.k]; reading a property of a non-object yields nothing here. *)
Definition get (k : string) (v : value) : option value :=
  match v with
  | VObject fields => lookup k fields
  | _ => None
  end.

(** [v.k1.k2...] along a path of property names. *)
Fixpoint get_path (path : list string) (v : value) : option value :=
  match path with
  | [] => Some v
  | k :: rest =>
      match get k v with
      | Some v' => get_path rest v'
      | None => None
      end
  end.

Definition keys (v : value) : list string :=
  match v with
  | VObject fields => map fst fields
  | _ => []
  end.

(** Every value reachable inside [v], [v] itself included. *)
Fixpoint subvalues (v : value) : list value :=
  v :: match v with
       | VArray items => flat_map subvalues items
       | VObject fields =>
           flat_map (fun kv => match kv with (_, x) => subvalues x end) fields
       | _ => []
       end.

End Js.

(** ** tailwind.config.js *)

Module Tailwind.
Import Js.

(** [require(s)], for a package that is not part of the repository. *)
Definition require (specifier : string) : value := VModule specifier.

Definition content : value :=
  VArray
    [ VString "./App.{js,jsx,ts,tsx}";
      VString "./app/**/*.{js,jsx,ts,tsx}";
      VString "./components/**/*.{js,jsx,ts,tsx}" ].

Definition colors : value :=
  VObject
    [ ("danger", VString "#dc2626");
      ("warning", VString "#f59e0b");
      ("safe", VString "#10b981") ].

Definition theme : value :=
  VObject [ ("extend", VObject [ ("colors", colors) ]) ].

Definition module_exports : value :=
  VObject
    [ ("content", content);
      ("presets", VArray [ require "nativewind/preset" ]);
      ("theme", theme);
      ("plugins", VArray []) ].

End Tailwind.

(** ** CSS hex colour literals *)

Module Css.

Definition is_lower_hex_digit (c : ascii) : bool :=
  let n := nat_of_ascii c in
  (Nat.leb 48 n && Nat.leb n 57) || (Nat.leb 97 n && Nat.leb n 102).

Fixpoint all_chars (p : ascii -> bool) (s : string) : bool :=
  match s with
  | EmptyString => true
  | String c rest => p c && all_chars p rest
  end.

(** ['#'] followed by exactly six lowercase hexadecimal digits. *)
Definition is_hex6 (s : string) : bool :=
  match s with
  | String c digits =>
      Ascii.eqb c "#" && Nat.eqb (String.length digits) 6
      && all_chars is_lower_hex_digit digits
  | EmptyString => false
  end.

(** The same, as a proposition over the characters. *)
Definition LowerHexDigit (c : ascii) : Prop :=
  In c (list_ascii_of_string "0123456789abcdef").

Definition Hex6 (s : string) : Prop :=
  exists d1 d2 d3 d4 d5 d6 : ascii,
    s = String "#" (string_of_list_ascii [d1; d2; d3; d4; d5; d6])
    /\ Forall LowerHexDigit [d1; d2; d3; d4; d5; d6].

End Css.

(** ** React elements and the render-time world *)

Module React.
Import Js.

(** What an element's type position holds: a binding imported from a
    package (with the member path taken from it, so [Stack.Screen] is
    [Imported "expo-router" ["Stack"; "Screen"]]), or a host tag. *)
Inductive element_type : Type :=
| Imported (package : string) (path : list string)
| Host (tag : string).

Inductive element : Type :=
| Element (type : element_type) (attrs : props) (children : list element).

Definition element_type_eqb (a b : element_type) : bool :=
  match a, b with
  | Imported p xs, Imported q ys =>
      String.eqb p q && (if list_eq_dec string_dec xs ys then true else false)
  | Host s, Host t => String.eqb s t
  | _, _ => false
  end.

(** Member access on an imported binding: [t.k]. *)
Definition member (t : element_type) (k : string) : element_type :=
  match t with
  | Imported p path => Imported p (path ++ [k])
  | Host tag => Host (tag ++ "." ++ k)%string
  end.

(** [<t attrs>children</t>]. *)
Definition jsx (t : element_type) (attrs : props) (children : list element)
  : element :=
  Element t attrs children.

Definition type_of (e : element) : element_type :=
  match e with Element t _ _ => t end.

Definition attrs_of (e : element) : props :=
  match e with Element _ a _ => a end.

Definition children_of (e : element) : list element :=
  match e with Element _ _ cs => cs end.

(** Every JavaScript value held in the attributes of an element tree. *)
Fixpoint element_values (e : element) : list value :=
  match e with
  | Element _ attrs cs =>
      flat_map (fun kv => subvalues (snd kv)) attrs
      ++ flat_map element_values cs
  end.

(** An effect registered with [useEffect]: the channel it subscribes to
    and whether it returns a cleanup. *)
Record effect : Type := {
  effect_channel : string;
  effect_cleanup : bool
}.

(** What code running during a render can read or change. *)
Record world : Type := {
  process_env : list (string * string);
  effects : list effect;
  channels : list string;
  storage : props
}.

Inductive outcome (A : Type) : Type :=
| Returned (a : A)
| Threw (error : value).
Arguments Returned {A} a.
Arguments Threw {A} error.

(** A computation run during a render: it sees the world, returns or
    throws, and leaves a world behind. *)
Definition Render (A : Type) : Type := world -> outcome A * world.

Definition ret {A : Type} (a : A) : Render A := fun w => (Returned a, w).

Definition bind {A B : Type} (m : Render A) (k : A -> Render B) : Render B :=
  fun w =>
    match m w with
    | (Returned a, w') => k a w'
    | (Threw e, w') => (Threw e, w')
    end.

Definition throw {A : Type} (e : value) : Render A := fun w => (Threw e, w).

(** [process.env[name]]. *)
Definition read_env (name : string) : Render value :=
  fun w =>
    (Returned
       match find (fun kv => String.eqb name (fst kv)) (process_env w) with
       | Some kv => VString (snd kv)
       | None => VUndefined
       end, w).

(** [useEffect(...)] opening a channel. *)
Definition use_effect (e : effect) : Render unit :=
  fun w =>
    (Returned tt,
     {| process_env := process_env w;
        effects := e :: effects w;
        channels := effect_channel e :: channels w;
        storage := storage w |}).

(** [x!]: the non-null assertion is erased, the value passes through. *)
Definition non_null (v : value) : value := v.

Definition set_env (env : list (string * string)) (w : world) : world :=
  {| process_env := env;
     effects := effects w;
     channels := channels w;
     storage := storage w |}.

End React.

(** ** app/_layout.tsx *)

Module Layout.
Import Js React.

(** The module's imports, in source order. *)
Definition imports : list string := [ "../global.css"; "expo-router" ].

(** [import { Stack } from "expo-router"]. *)
Definition Stack : element_type := Imported "expo-router" [ "Stack" ].

(** [export default function RootLayout()]: the function declares no
    parameter, so whatever arguments a caller passes are ignored. *)
Definition RootLayout (args : list value) : Render element :=
  ret
    (jsx Stack []
       [ jsx (member Stack "Screen")
           [ ("name", VString "index");
             ("options", VObject [ ("headerShown", VBool false) ]) ]
           [] ]).

(** The screens a [Stack] element registers: its [Stack.Screen]
    children. *)
Definition registered_screens (e : element) : list element :=
  if element_type_eqb (type_of e) Stack
  then filter (fun c => element_type_eqb (type_of c) (member Stack "Screen"))
         (children_of e)
  else [].

Definition screen_name (s : element) : option value :=
  lookup "name" (attrs_of s).

Definition screen_options (s : element) : option value :=
  lookup "options" (attrs_of s).

Definition header_shown (s : element) : option value :=
  match screen_options s with
  | Some o => get "headerShown" o
  | None => None
  end.

End Layout.

(** ** The guidance document: declared interfaces and code samples *)

Module Guidance.
Import Js React.

Inductive ts_type : Type :=
| TString
| TNumber
| TVoid
| TRef (name : string)
| TArrow (params : list (string * ts_type)) (result : ts_type).

Record interface_decl : Type := {
  interface_name : string;
  members : list (string * ts_type)
}.

Definition CrimeRecord : interface_decl :=
  {| interface_name := "CrimeRecord";
     members :=
       [ ("id", TString);
         ("crime_type", TString);
         ("location_lat", TNumber);
         ("location_lng", TNumber);
         ("incident_date", TString) ] |}.

Definition CrimeCardProps : interface_decl :=
  {| interface_name := "CrimeCardProps";
     members :=
       [ ("crime", TRef "CrimeRecord");
         ("onPress", TArrow [ ("id", TString) ] TVoid) ] |}.

(** The interfaces the document declares, in order of appearance. *)
Definition interfaces : list interface_decl := [ CrimeRecord; CrimeCardProps ].

Definition is_primitive (t : ts_type) : bool :=
  match t with
  | TString | TNumber => true
  | _ => false
  end.

(** A record of plain data: every member is a string or a number. *)
Definition is_data_record (d : interface_decl) : bool :=
  forallb (fun m => is_primitive (snd m)) (members d).

Definition has_type (v : value) (t : ts_type) : bool :=
  match t, v with
  | TString, VString _ => true
  | TNumber, VNumber _ => true
  | _, _ => false
  end.

(** Structural conformance of a value to an interface of plain data: an
    object carrying every member at its declared type. *)
Definition conforms (d : interface_decl) (v : value) : bool :=
  match v with
  | VObject fields =>
      forallb
        (fun m =>
           match lookup (fst m) fields with
           | Some x => has_type x (snd m)
           | None => false
           end)
        (members d)
  | _ => false
  end.

(** The two variables of the [.env] sample. *)
Definition documented_env_vars : list string :=
  [ "EXPO_PUBLIC_SUPABASE_URL"; "EXPO_PUBLIC_SUPABASE_ANON_KEY" ].

(** The sample [const supabaseUrl = process.env.EXPO_PUBLIC_SUPABASE_URL!]. *)
Definition sample_supabaseUrl : Render value :=
  bind (read_env "EXPO_PUBLIC_SUPABASE_URL") (fun v => ret (non_null v)).

(** The sample [useEffect] that subscribes to the [crime_updates] channel
    and returns a cleanup removing it. *)
Definition sample_subscription : Render unit :=
  use_effect {| effect_channel := "crime_updates"; effect_cleanup := true |}.

End Guidance.

(** ** The glob language of the content patterns *)

Module Glob.

(** [split_on c s]: the pieces of [s] between occurrences of [c]. *)
Fixpoint split_on (c : ascii) (s : string) : list string :=
  match s with
  | EmptyString => [ EmptyString ]
  | String d rest =>
      if Ascii.eqb d c then EmptyString :: split_on c rest
      else
        match split_on c rest with
        | piece :: pieces => String d piece :: pieces
        | [] => [ String d EmptyString ]
        end
  end.

Fixpoint join (c : ascii) (pieces : list string) : string :=
  match pieces with
  | [] => EmptyString
  | [ piece ] => piece
  | piece :: rest => (piece ++ String c (join c rest))%string
  end.

(** [cut c s]: [s] cut at the first [c]. *)
Fixpoint cut (c : ascii) (s : string) : option (string * string) :=
  match s with
  | EmptyString => None
  | String d rest =>
      if Ascii.eqb d c then Some (EmptyString, rest)
      else
        match cut c rest with
        | Some (before, after) => Some (String d before, after)
        | None => None
        end
  end.

(** A pattern with one brace group: what precedes it, its alternatives
    and what follows it. *)
Definition brace_group (pattern : string)
  : option (string * list string * string) :=
  match cut "{" pattern with
  | Some (before, rest) =>
      match cut "}" rest with
      | Some (alternatives, after) =>
          Some (before, split_on "," alternatives, after)
      | None => None
      end
  | None => None
  end.

Definition expand_braces (pattern : string) : list string :=
  match brace_group pattern with
  | Some (before, alternatives, after) =>
      map (fun a => (before ++ a ++ after)%string) alternatives
  | None => [ pattern ]
  end.

(** A name that starts with a dot. *)
Definition hidden (s : string) : bool :=
  match s with
  | String c _ => Ascii.eqb c "."
  | EmptyString => false
  end.

(** A name a leading wildcard can stand for: not empty and not starting
    with a dot. *)
Definition visible (s : string) : bool :=
  match s with
  | String c _ => negb (Ascii.eqb c ".")
  | EmptyString => false
  end.

(** The characters of a name against the characters of a pattern
    segment: [*] stands for any run of characters, every other character
    for itself. *)
Fixpoint wildcard_match (p s : list ascii) : bool :=
  match p with
  | [] => match s with [] => true | _ :: _ => false end
  | c :: p' =>
      if Ascii.eqb c "*" then
        (fix star (s : list ascii) : bool :=
           wildcard_match p' s
           || match s with [] => false | _ :: s' => star s' end) s
      else
        match s with
        | [] => false
        | d :: s' => Ascii.eqb c d && wildcard_match p' s'
        end
  end.

(** One path segment against one pattern segment.  The scan runs
    without the dot option: a segment that begins with [*] matches
    neither the empty name nor a name that starts with a dot. *)
Definition segment_match (p s : string) : bool :=
  match p with
  | String c _ =>
      if Ascii.eqb c "*"
      then visible s
           && wildcard_match (list_ascii_of_string p) (list_ascii_of_string s)
      else wildcard_match (list_ascii_of_string p) (list_ascii_of_string s)
  | EmptyString => wildcard_match [] (list_ascii_of_string s)
  end.

(** Path segments against pattern segments: a [**] segment stands for
    any number of directories, none of which starts with a dot. *)
Fixpoint segments_match (ps ss : list string) : bool :=
  match ps with
  | [] => match ss with [] => true | _ :: _ => false end
  | p :: ps' =>
      if String.eqb p "**" then
        (fix star (ss : list string) : bool :=
           segments_match ps' ss
           || match ss with
              | [] => false
              | s :: ss' => negb (hidden s) && star ss'
              end) ss
      else
        match ss with
        | [] => false
        | s :: ss' => segment_match p s && segments_match ps' ss'
        end
  end.

(** A pattern segment without [*]. *)
Definition literal (p : list ascii) : bool :=
  forallb (fun c => negb (Ascii.eqb c "*")) p.

Definition glob_match (pattern path : string) : bool :=
  existsb
    (fun p => segments_match (split_on "/" p) (split_on "/" path))
    (expand_braces pattern).

(** The patterns of a [content] array. *)
Definition patterns (content : Js.value) : list string :=
  match content with
  | Js.VArray items =>
      flat_map
        (fun v => match v with Js.VString s => [ s ] | _ => [] end) items
  | _ => []
  end.

Definition extensions : list string := [ "js"; "jsx"; "ts"; "tsx" ].

(** [path] ends in [.ext]. *)
Definition has_extension (ext path : string) : Prop :=
  exists stem : string, path = (stem ++ "." ++ ext)%string.

End Glob.

(** ** Paths of project files *)

Module Paths.

(** A name that can stand as one segment of a path: it holds no [/]. *)
Fixpoint slash_free (s : string) : bool :=
  match s with
  | EmptyString => true
  | String c rest => negb (Ascii.eqb c "/") && slash_free rest
  end.

(** [./dir/d1/.../dn/name.ext]. *)
Definition file_under (dir : string) (dirs : list string) (name ext : string)
  : string :=
  Glob.join "/" ("." :: dir :: dirs ++ [ (name ++ "." ++ ext)%string ]).

(** A name a file or directory of the scanned tree bears: not empty,
    without [/], and not starting with a dot (the scan skips dot files
    and dot directories). *)
Definition scanned_name (s : string) : bool :=
  slash_free s && Glob.visible s.

End Paths.

(** ** The guidance document: the marker list and the loading sample *)

Module Samples.
Import Js React.

(** The value thrown by reading a property of [undefined] or [null]. *)
Definition type_error : value := VObject [ ("name", VString "TypeError") ].

(** What [v.k] reads from an object: the property, or [undefined] when
    the object has none of that name. *)
Definition field (k : string) (v : value) : value :=
  match get k v with
  | Some x => x
  | None => VUndefined
  end.

(** [v.k] for the property names of a crime record: reading from
    [undefined] or [null] throws, an object yields its property, and no
    other value has a property of such a name. *)
Definition prop (k : string) (v : value) : Render value :=
  match v with
  | VUndefined | VNull => throw type_error
  | _ => ret (field k v)
  end.

Definition is_object (v : value) : bool :=
  match v with
  | VObject _ => true
  | _ => false
  end.

Definition is_nullish (v : value) : bool :=
  match v with
  | VUndefined | VNull => true
  | _ => false
  end.

(** [import MapView, { Marker, Heatmap } from "react-native-maps"]. *)
Definition Marker : element_type := Imported "react-native-maps" [ "Marker" ].

(** The arrow function mapped over [crimes]: one [Marker] per crime,
    its attributes evaluated in source order. *)
Definition crime_marker (crime : value) : Render element :=
  bind (prop "id" crime) (fun key =>
  bind (prop "location_lat" crime) (fun latitude =>
  bind (prop "location_lng" crime) (fun longitude =>
  bind (prop "crime_type" crime) (fun title =>
  ret (jsx Marker
         [ ("key", key);
           ("coordinate",
             VObject [ ("latitude", latitude); ("longitude", longitude) ]);
           ("title", title) ]
         []))))).

(** [xs.map(f)]: [f] is called on the items from left to right, and the
    first throw ends the call. *)
Fixpoint array_map {A B : Type} (f : A -> Render B) (xs : list A)
  : Render (list B) :=
  match xs with
  | [] => ret []
  | x :: rest =>
      bind (f x) (fun y =>
      bind (array_map f rest) (fun ys => ret (y :: ys)))
  end.

(** [crimes.map((crime) => <Marker ... />)]. *)
Definition crime_markers (crimes : list value) : Render (list element) :=
  array_map crime_marker crimes.

(** The marker an object gives rise to. *)
Definition marker_of (crime : value) : element :=
  Element Marker
    [ ("key", field "id" crime);
      ("coordinate",
        VObject [ ("latitude", field "location_lat" crime);
                  ("longitude", field "location_lng" crime) ]);
      ("title", field "crime_type" crime) ]
    [].

(** The key React keeps for a marker whose [key] attribute is a string:
    that string, as it is.  A key of another type, which React would
    first turn into a string, is given no text here. *)
Definition marker_key (m : element) : option string :=
  match lookup "key" (attrs_of m) with
  | Some (VString s) => Some s
  | _ => None
  end.

(** A marker whose key and title are strings and whose coordinate holds
    two numbers. *)
Definition well_typed_marker (m : element) : Prop :=
  exists (key title : string) (latitude longitude : spec_float),
    m = Element Marker
          [ ("key", VString key);
            ("coordinate",
              VObject [ ("latitude", VNumber latitude);
                        ("longitude", VNumber longitude) ]);
            ("title", VString title) ]
          [].

(** *** The loading and error sample *)

(** What a [catch] clause can receive: an [Error] with its message, or
    any other value. *)
Inductive thrown : Type :=
| ErrorObject (message : string)
| NotAnError (v : value).

(** The [{ data, error }] a query resolves to; [error] is [null] on
    success. *)
Record response : Type := {
  data : value;
  error : option thrown
}.

(** How the awaited query settles. *)
Inductive settled : Type :=
| Fulfilled (r : response)
| Rejected (reason : thrown).

(** The state variables of the sample: [crimes], [isLoading] and
    [error], the last [null] or a string. *)
Record screen_state : Type := {
  crimes : value;
  isLoading : bool;
  error_state : option string
}.

(** [useState(true)] and [useState<string | null>(null)]. *)
Definition initial_state (crimes0 : value) : screen_state :=
  {| crimes := crimes0; isLoading := true; error_state := None |}.

Definition setCrimes (v : value) (st : screen_state) : screen_state :=
  {| crimes := v; isLoading := isLoading st; error_state := error_state st |}.

Definition setError (e : option string) (st : screen_state) : screen_state :=
  {| crimes := crimes st; isLoading := isLoading st; error_state := e |}.

Definition setIsLoading (b : bool) (st : screen_state) : screen_state :=
  {| crimes := crimes st; isLoading := b; error_state := error_state st |}.

(** [err instanceof Error ? err.message : "An error occurred"]. *)
Definition error_text (err : thrown) : string :=
  match err with
  | ErrorObject message => message
  | NotAnError _ => "An error occurred"
  end.

(** A value in the condition of an [if]. *)
Definition js_truthy (v : value) : bool :=
  match v with
  | VUndefined | VNull => false
  | VBool b => b
  | VNumber (S754_zero _) | VNumber S754_nan => false
  | VNumber _ => true
  | VString s => negb (String.eqb s EmptyString)
  | VArray _ | VObject _ | VModule _ => true
  end.

Definition thrown_truthy (e : thrown) : bool :=
  match e with
  | ErrorObject _ => true
  | NotAnError v => js_truthy v
  end.

(** The [try] block: the state it leaves and what it threw, if
    anything.  [if (error) throw error] throws only an [error] that
    counts as true. *)
Definition try_block (q : settled) (st : screen_state)
  : screen_state * option thrown :=
  match q with
  | Rejected reason => (st, Some reason)
  | Fulfilled r =>
      match error r with
      | Some e =>
          if thrown_truthy e then (st, Some e)
          else (setCrimes (data r) st, None)
      | None => (setCrimes (data r) st, None)
      end
  end.

Definition catch_block (err : thrown) (st : screen_state) : screen_state :=
  setError (Some (error_text err)) st.

Definition finally_block (st : screen_state) : screen_state :=
  setIsLoading false st.

(** [try { ... } catch (err) { ... } finally { ... }]: the state the
    setters leave, which is the state the next render reads. *)
Definition load (q : settled) (st : screen_state) : screen_state :=
  match try_block q st with
  | (st', Some err) => finally_block (catch_block err st')
  | (st', None) => finally_block st'
  end.

(** A string in the condition of an [if]: the empty string is false. *)
Definition truthy (s : string) : bool := negb (String.eqb s EmptyString).

(** The two early returns that follow; [None] when neither is taken.
    The sample does not show where [ActivityIndicator] and
    [ErrorMessage] come from, so they stand as bare names. *)
Definition view (st : screen_state) : option element :=
  if isLoading st then
    Some (jsx (Host "ActivityIndicator") [ ("className", VString "flex-1") ] [])
  else
    match error_state st with
    | Some message =>
        if truthy message
        then Some (jsx (Host "ErrorMessage") [ ("message", VString message) ] [])
        else None
    | None => None
    end.

(** One pass over the sample with the state bound to [st]: the early
    returns come after the [try] statement but read the [isLoading] and
    [error] bound before it, so the pass returns [view st]; the setters
    leave [load q st] for the next pass. *)
Definition pass (q : settled) (st : screen_state)
  : option element * screen_state :=
  (view st, load q st).

(** The query failed with [err]: it was rejected, or it resolved with
    an [error] that counts as true. *)
Definition failed_with (q : settled) (err : thrown) : Prop :=
  q = Rejected err
  \/ (thrown_truthy err = true
      /\ exists d : value, q = Fulfilled {| data := d; error := Some err |}).

(** The query succeeded with [d]: it resolved with [data] set to [d] and
    an [error] that is [null] or counts as false. *)
Definition succeeded_with (q : settled) (d : value) : Prop :=
  q = Fulfilled {| data := d; error := None |}
  \/ exists e : thrown,
      thrown_truthy e = false
      /\ q = Fulfilled {| data := d; error := Some e |}.

End Samples.

(** * Properties *)

(** ** Helper lemmas: hex colour literals *)

Lemma is_lower_hex_digit_table (c : ascii) :
  Css.is_lower_hex_digit c
  = existsb (Ascii.eqb c) (list_ascii_of_string "0123456789abcdef").
Proof.
  destruct c as [[] [] [] [] [] [] [] []]; vm_compute; reflexivity.
Qed.

Lemma is_lower_hex_digit_spec (c : ascii) :
  Css.is_lower_hex_digit c = true <-> Css.LowerHexDigit c.
Proof.
  rewrite is_lower_hex_digit_table.
  unfold Css.LowerHexDigit.
  rewrite existsb_exists.
  split.
  - intros (d & Hin & Heq). apply Ascii.eqb_eq in Heq. subst d. exact Hin.
  - intro Hin. exists c. split; [ exact Hin | apply Ascii.eqb_refl ].
Qed.

Lemma is_hex6_sound (s : string) : Css.is_hex6 s = true -> Css.Hex6 s.
Proof.
  unfold Css.is_hex6.
  destruct s as [| c s]; [ discriminate | ].
  intro H.
  apply andb_true_iff in H as [H Hall].
  apply andb_true_iff in H as [Hc Hlen].
  apply Ascii.eqb_eq in Hc; subst c.
  apply Nat.eqb_eq in Hlen.
  destruct s as [| d1 [| d2 [| d3 [| d4 [| d5 [| d6 [| d7 s]]]]]]];
    try discriminate Hlen.
  exists d1, d2, d3, d4, d5, d6.
  split; [ reflexivity | ].
  cbn [Css.all_chars] in Hall.
  rewrite !andb_true_iff in Hall.
  destruct Hall as (H1 & H2 & H3 & H4 & H5 & H6 & _).
  repeat (apply Forall_cons; [ apply is_lower_hex_digit_spec; assumption | ]).
  apply Forall_nil.
Qed.

Lemma is_hex6_complete (s : string) : Css.Hex6 s -> Css.is_hex6 s = true.
Proof.
  intros (d1 & d2 & d3 & d4 & d5 & d6 & -> & Hall).
  repeat match goal with
         | H : Forall _ (_ :: _) |- _ => inversion H; clear H; subst
         end.
  repeat match goal with
         | H : Css.LowerHexDigit _ |- _ =>
             apply is_lower_hex_digit_spec in H
         end.
  unfold Css.is_hex6.
  cbn [string_of_list_ascii Css.all_chars String.length].
  rewrite Ascii.eqb_refl.
  cbn [Nat.eqb andb].
  repeat match goal with
         | H : Css.is_lower_hex_digit _ = true |- _ => rewrite H; clear H
         end.
  reflexivity.
Qed.

(** ** The root layout *)

(** [RootLayout] is a constant of the render monad: it returns the same
    element whatever it is called with and leaves the world as it found
    it. *)
Lemma RootLayout_run (args : list Js.value) (w : React.world) :
  Layout.RootLayout args w
  = (React.Returned
       (React.Element Layout.Stack []
          [ React.Element (React.member Layout.Stack "Screen")
              [ ("name", Js.VString "index");
                ("options", Js.VObject [ ("headerShown", Js.VBool false) ]) ]
              [] ]),
     w).
Proof. reflexivity. Qed.

(** C1: the root layout registers exactly one screen in the navigation
    stack: the element it returns is a [Stack] whose only child is a
    [Stack.Screen], that child is the whole list of registered screens,
    and its options set [headerShown] to [false]. *)
Theorem C1_single_screen_header_hidden :
  forall (args : list Js.value) (w : React.world),
  exists root s : React.element,
    fst (Layout.RootLayout args w) = React.Returned root
    /\ React.type_of root = Layout.Stack
    /\ React.children_of root = [ s ]
    /\ Layout.registered_screens root = [ s ]
    /\ List.length (Layout.registered_screens root) = 1
    /\ Layout.screen_options s
       = Some (Js.VObject [ ("headerShown", Js.VBool false) ])
    /\ Layout.header_shown s = Some (Js.VBool false).
Proof.
  intros args w.
  rewrite RootLayout_run.
  eexists; eexists.
  split; [ reflexivity | ].
  repeat split; reflexivity.
Qed.

(** C9: the single registered screen is named by the string [index]. *)
Theorem C9_screen_name_index :
  forall (args : list Js.value) (w : React.world),
  exists root : React.element,
    fst (Layout.RootLayout args w) = React.Returned root
    /\ map Layout.screen_name (Layout.registered_screens root)
       = [ Some (Js.VString "index") ].
Proof.
  intros args w.
  rewrite RootLayout_run.
  eexists; split; reflexivity.
Qed.

(** C3: evaluating the root layout returns an element tree and does not
    throw, for every argument list and every world it is run in. *)
Theorem C3_root_layout_never_throws :
  forall (args : list Js.value) (w : React.world),
    (exists root : React.element,
        fst (Layout.RootLayout args w) = React.Returned root)
    /\ (forall error : Js.value,
          fst (Layout.RootLayout args w) <> React.Threw error).
Proof.
  intros args w.
  rewrite RootLayout_run.
  split.
  - eexists; reflexivity.
  - intros error H; discriminate H.
Qed.

(** C4: the root layout does not read the environment: run in two
    worlds that differ in what [process.env] assigns, it produces the
    same outcome and leaves each environment as it was; in particular
    for any two assignments of values to the two documented variables,
    the backend URL and the public key. *)
Theorem C4_root_layout_ignores_environment :
  forall (args : list Js.value) (w : React.world)
         (env1 env2 : list (string * string)),
    fst (Layout.RootLayout args (React.set_env env1 w))
    = fst (Layout.RootLayout args (React.set_env env2 w))
    /\ React.process_env
         (snd (Layout.RootLayout args (React.set_env env1 w))) = env1
    /\ React.process_env
         (snd (Layout.RootLayout args (React.set_env env2 w))) = env2
    /\ (forall url1 key1 url2 key2 : string,
          fst (Layout.RootLayout args
                 (React.set_env
                    (combine Guidance.documented_env_vars [ url1; key1 ]) w))
          = fst (Layout.RootLayout args
                   (React.set_env
                      (combine Guidance.documented_env_vars [ url2; key2 ])
                      w))).
Proof.
  intros args w env1 env2.
  rewrite !RootLayout_run.
  repeat split.
Qed.

(** The documented sample, by contrast, does depend on the environment. *)
Lemma sample_supabaseUrl_reads_env :
  forall (w : React.world) (url : string),
    fst (Guidance.sample_supabaseUrl
           (React.set_env [ ("EXPO_PUBLIC_SUPABASE_URL", url) ] w))
    = React.Returned (Js.VString url).
Proof. intros w url. reflexivity. Qed.

(** C5: the root layout is pure and deterministic: it registers no
    effect, opens no channel and leaves shared storage untouched (the
    world after the call is the world before it), and any two
    invocations return the same result. *)
Theorem C5_root_layout_pure :
  (forall (args : list Js.value) (w : React.world),
      snd (Layout.RootLayout args w) = w
      /\ React.effects (snd (Layout.RootLayout args w)) = React.effects w
      /\ React.channels (snd (Layout.RootLayout args w)) = React.channels w
      /\ React.storage (snd (Layout.RootLayout args w)) = React.storage w)
  /\ (forall (args1 args2 : list Js.value) (w1 w2 : React.world),
        fst (Layout.RootLayout args1 w1) = fst (Layout.RootLayout args2 w2)).
Proof.
  split.
  - intros args w. rewrite RootLayout_run. repeat split.
  - intros args1 args2 w1 w2. rewrite !RootLayout_run. reflexivity.
Qed.

(** The documented subscription sample, by contrast, registers an effect
    with a cleanup and opens the [crime_updates] channel. *)
Lemma sample_subscription_registers_effect :
  forall w : React.world,
    React.effects (snd (Guidance.sample_subscription w))
    = {| React.effect_channel := "crime_updates";
         React.effect_cleanup := true |} :: React.effects w
    /\ React.channels (snd (Guidance.sample_subscription w))
       = "crime_updates" :: React.channels w.
Proof. intro w. split; reflexivity. Qed.

(** ** The style configuration *)

(** C2: the configuration extends the theme with a colour palette and
    nothing else: [theme] holds only [extend], [extend] holds only
    [colors], and [colors] defines exactly the three tokens [danger],
    [warning] and [safe]; every other property name is undefined at each
    of the three levels. *)
Theorem C2_theme_extends_colors_only :
  exists extend palette : Js.value,
    Js.get_path [ "theme"; "extend" ] Tailwind.module_exports = Some extend
    /\ Js.keys Tailwind.theme = [ "extend" ]
    /\ (forall k : string,
          Js.get_path [ "theme"; k ] Tailwind.module_exports
          = if String.eqb k "extend" then Some extend else None)
    /\ Js.keys extend = [ "colors" ]
    /\ (forall k : string,
          Js.get k extend
          = if String.eqb k "colors" then Some palette else None)
    /\ Js.keys palette = [ "danger"; "warning"; "safe" ]
    /\ List.length (Js.keys palette) = 3
    /\ NoDup (Js.keys palette)
    /\ (forall k : string,
          Js.get k palette
          = if String.eqb k "danger" then Some (Js.VString "#dc2626")
            else if String.eqb k "warning" then Some (Js.VString "#f59e0b")
            else if String.eqb k "safe" then Some (Js.VString "#10b981")
            else None).
Proof.
  exists (Js.VObject [ ("colors", Tailwind.colors) ]), Tailwind.colors.
  split; [ reflexivity | ].
  split; [ reflexivity | ].
  split.
  { intro k. cbn. destruct (String.eqb k "extend"); reflexivity. }
  split; [ reflexivity | ].
  split; [ intro k; reflexivity | ].
  split; [ reflexivity | ].
  split; [ reflexivity | ].
  split.
  { cbn [Js.keys Tailwind.colors map fst].
    repeat (apply NoDup_cons; [ cbn; intuition discriminate | ]).
    apply NoDup_nil. }
  intro k. reflexivity.
Qed.

(** C10: each of the three severity tokens is a well-formed hex colour
    literal, a [#] followed by exactly six lowercase hexadecimal
    digits. *)
Theorem C10_color_tokens_are_hex6 :
  forall name : string,
    In name [ "danger"; "warning"; "safe" ] ->
    exists s : string,
      Js.get_path [ "theme"; "extend"; "colors"; name ] Tailwind.module_exports
      = Some (Js.VString s)
      /\ Css.Hex6 s
      /\ Css.is_hex6 s = true.
Proof.
  intros name Hin.
  cbn [In] in Hin.
  destruct Hin as [<- | [<- | [<- | []]]];
    eexists; (split; [ reflexivity | ]);
    (split; [ apply is_hex6_sound | ]); reflexivity.
Qed.

Lemma C10_color_tokens_are_hex6_witness :
  exists s : string,
    Js.get_path [ "theme"; "extend"; "colors"; "warning" ]
      Tailwind.module_exports
    = Some (Js.VString s)
    /\ Css.Hex6 s
    /\ Css.is_hex6 s = true.
Proof.
  apply (C10_color_tokens_are_hex6 "warning").
  simpl. right. left. reflexivity.
Defined.

(** ** The crime-record interface of the guidance *)

Lemma forallb_negb_In {A : Type} (p : A -> bool) (l : list A) :
  forallb (fun x => negb (p x)) l = true ->
  forall x : A, In x l -> p x = false.
Proof.
  intros Hall x Hin.
  rewrite forallb_forall in Hall.
  apply negb_true_iff, Hall, Hin.
Qed.

Lemma has_type_string (v : Js.value) :
  Guidance.has_type v Guidance.TString = true
  <-> exists s : string, v = Js.VString s.
Proof.
  split.
  - destruct v; try discriminate. intros _. eexists; reflexivity.
  - intros [s ->]. reflexivity.
Qed.

Lemma has_type_number (v : Js.value) :
  Guidance.has_type v Guidance.TNumber = true
  <-> exists x : spec_float, v = Js.VNumber x.
Proof.
  split.
  - destruct v; try discriminate. intros _. eexists; reflexivity.
  - intros [x ->]. reflexivity.
Qed.

Lemma lookup_has_type_string (k : string) (fields : Js.props) :
  match Js.lookup k fields with
  | Some x => Guidance.has_type x Guidance.TString
  | None => false
  end = true
  <-> exists s : string, Js.lookup k fields = Some (Js.VString s).
Proof.
  destruct (Js.lookup k fields) as [x |].
  - rewrite has_type_string. split.
    + intros [s ->]. exists s. reflexivity.
    + intros [s H]. exists s. congruence.
  - split; [ discriminate | intros [s H]; discriminate H ].
Qed.

Lemma lookup_has_type_number (k : string) (fields : Js.props) :
  match Js.lookup k fields with
  | Some x => Guidance.has_type x Guidance.TNumber
  | None => false
  end = true
  <-> exists n : spec_float, Js.lookup k fields = Some (Js.VNumber n).
Proof.
  destruct (Js.lookup k fields) as [x |].
  - rewrite has_type_number. split.
    + intros [n ->]. exists n. reflexivity.
    + intros [n H]. exists n. congruence.
  - split; [ discriminate | intros [n H]; discriminate H ].
Qed.

(** The shape of a crime record: an identifier, a category, a pair of
    coordinates and a timestamp. *)
Lemma conforms_CrimeRecord (v : Js.value) :
  Guidance.conforms Guidance.CrimeRecord v = true
  <-> exists (fields : Js.props) (identifier category : string)
             (latitude longitude : spec_float) (timestamp : string),
      v = Js.VObject fields
      /\ Js.lookup "id" fields = Some (Js.VString identifier)
      /\ Js.lookup "crime_type" fields = Some (Js.VString category)
      /\ Js.lookup "location_lat" fields = Some (Js.VNumber latitude)
      /\ Js.lookup "location_lng" fields = Some (Js.VNumber longitude)
      /\ Js.lookup "incident_date" fields = Some (Js.VString timestamp).
Proof.
  split.
  - destruct v; try discriminate.
    unfold Guidance.conforms, Guidance.CrimeRecord, Guidance.members.
    cbn [forallb fst snd].
    rewrite !andb_true_iff.
    rewrite !lookup_has_type_string, !lookup_has_type_number.
    intros ([i Hi] & [c Hc] & [la Hla] & [lo Hlo] & [t Ht] & _).
    exists fields, i, c, la, lo, t. auto 10.
  - intros (fields & i & c & la & lo & t & -> & Hi & Hc & Hla & Hlo & Ht).
    unfold Guidance.conforms, Guidance.CrimeRecord, Guidance.members.
    cbn [forallb fst snd].
    rewrite Hi, Hc, Hla, Hlo, Ht. reflexivity.
Qed.

(** C7: the guidance declares exactly one crime-record type, the
    interface [CrimeRecord] (the only interface of that name and the only
    one made of plain data); its shape is an identifier, a category, a
    pair of coordinates and a timestamp; and no value built by the
    executable code (the element tree of the root layout, the exported
    configuration) has that shape, the root layout writes nothing to
    storage, and it inspects none of its arguments. *)
Theorem C7_crime_record_illustrative_only :
  filter (fun d => String.eqb (Guidance.interface_name d) "CrimeRecord")
    Guidance.interfaces = [ Guidance.CrimeRecord ]
  /\ filter Guidance.is_data_record Guidance.interfaces
     = [ Guidance.CrimeRecord ]
  /\ Guidance.members Guidance.CrimeRecord
     = [ ("id", Guidance.TString);
         ("crime_type", Guidance.TString);
         ("location_lat", Guidance.TNumber);
         ("location_lng", Guidance.TNumber);
         ("incident_date", Guidance.TString) ]
  /\ (forall v : Js.value,
        Guidance.conforms Guidance.CrimeRecord v = true
        <-> exists (fields : Js.props) (identifier category : string)
                   (latitude longitude : spec_float) (timestamp : string),
            v = Js.VObject fields
            /\ Js.lookup "id" fields = Some (Js.VString identifier)
            /\ Js.lookup "crime_type" fields = Some (Js.VString category)
            /\ Js.lookup "location_lat" fields = Some (Js.VNumber latitude)
            /\ Js.lookup "location_lng" fields = Some (Js.VNumber longitude)
            /\ Js.lookup "incident_date" fields
               = Some (Js.VString timestamp))
  /\ (forall (args : list Js.value) (w : React.world)
             (root : React.element) (v : Js.value),
        fst (Layout.RootLayout args w) = React.Returned root ->
        In v (React.element_values root) ->
        Guidance.conforms Guidance.CrimeRecord v = false)
  /\ (forall v : Js.value,
        In v (Js.subvalues Tailwind.module_exports) ->
        Guidance.conforms Guidance.CrimeRecord v = false)
  /\ (forall (args : list Js.value) (w : React.world),
        React.storage (snd (Layout.RootLayout args w)) = React.storage w)
  /\ (forall (args1 args2 : list Js.value) (w : React.world),
        Layout.RootLayout args1 w = Layout.RootLayout args2 w).
Proof.
  split; [ reflexivity | ].
  split; [ reflexivity | ].
  split; [ reflexivity | ].
  split; [ exact conforms_CrimeRecord | ].
  split.
  { intros args w root v Hrun.
    rewrite RootLayout_run in Hrun. cbn [fst] in Hrun.
    injection Hrun as <-.
    apply forallb_negb_In. vm_compute. reflexivity. }
  split.
  { apply forallb_negb_In. vm_compute. reflexivity. }
  split; reflexivity.
Qed.

Lemma C7_crime_record_illustrative_only_witness :
  Guidance.conforms Guidance.CrimeRecord
    (Js.VObject [ ("headerShown", Js.VBool false) ]) = false
  /\ Guidance.conforms Guidance.CrimeRecord Tailwind.colors = false.
Proof.
  destruct C7_crime_record_illustrative_only
    as (_ & _ & _ & _ & Hlayout & Hconfig & _).
  split.
  - apply (Hlayout []
             {| React.process_env := []; React.effects := [];
                React.channels := []; React.storage := [] |}
             (React.Element Layout.Stack []
                [ React.Element (React.member Layout.Stack "Screen")
                    [ ("name", Js.VString "index");
                      ("options",
                        Js.VObject [ ("headerShown", Js.VBool false) ]) ]
                    [] ])).
    + reflexivity.
    + simpl. right. left. reflexivity.
  - apply Hconfig.
    unfold Tailwind.module_exports, Tailwind.theme.
    simpl. do 9 right. left. reflexivity.
Defined.

(** ** Helper lemmas: strings, splitting and glob matching *)

Section GlobFacts.
Import Glob.

Lemma string_app_assoc (a b c : string) :
  ((a ++ b) ++ c)%string = (a ++ (b ++ c))%string.
Proof.
  induction a as [| x a IH]; cbn; [ reflexivity | now rewrite IH ].
Qed.

Lemma string_of_list_ascii_app (a b : list ascii) :
  string_of_list_ascii (a ++ b)
  = (string_of_list_ascii a ++ string_of_list_ascii b)%string.
Proof.
  induction a as [| x a IH]; cbn; [ reflexivity | now rewrite IH ].
Qed.

Lemma list_ascii_of_string_app (a b : string) :
  list_ascii_of_string (a ++ b)%string
  = list_ascii_of_string a ++ list_ascii_of_string b.
Proof.
  induction a as [| x a IH]; cbn; [ reflexivity | now rewrite IH ].
Qed.

Lemma list_ascii_of_string_inj (a b : string) :
  list_ascii_of_string a = list_ascii_of_string b -> a = b.
Proof.
  intro H.
  rewrite <- (string_of_list_ascii_of_string a),
          <- (string_of_list_ascii_of_string b), H.
  reflexivity.
Qed.

Lemma split_on_not_nil (c : ascii) (s : string) : split_on c s <> [].
Proof.
  destruct s as [| d rest]; cbn; [ discriminate | ].
  destruct (Ascii.eqb d c); [ discriminate | ].
  destruct (split_on c rest); discriminate.
Qed.

(** Splitting loses nothing: joining the pieces gives the string back. *)
Lemma join_split_on (c : ascii) (s : string) : join c (split_on c s) = s.
Proof.
  induction s as [| d rest IH]; [ reflexivity | ].
  cbn [split_on].
  destruct (Ascii.eqb_spec d c) as [-> | Hne].
  - destruct (split_on c rest) as [| p ps] eqn:E.
    + exfalso. exact (split_on_not_nil c rest E).
    + cbn [join String.append]. cbn [join] in IH. rewrite IH. reflexivity.
  - destruct (split_on c rest) as [| p ps] eqn:E.
    + exfalso. exact (split_on_not_nil c rest E).
    + destruct ps as [| q qs]; cbn [join String.append] in *;
        rewrite IH; reflexivity.
Qed.

Lemma join_last (c : ascii) (pieces : list string) (x : string) :
  exists stem : string, join c (pieces ++ [ x ]) = (stem ++ x)%string.
Proof.
  induction pieces as [| p ps IH].
  - exists EmptyString. reflexivity.
  - destruct IH as [stem IH].
    exists (p ++ String c stem)%string.
    cbn [app].
    destruct (ps ++ [ x ]) as [| q qs] eqn:E.
    + destruct ps; discriminate E.
    + cbn [join]. cbn [join] in IH. rewrite IH.
      rewrite string_app_assoc. reflexivity.
Qed.

Lemma wildcard_match_star_nil (p : list ascii) :
  wildcard_match ("*"%char :: p) [] = wildcard_match p [] || false.
Proof. reflexivity. Qed.

Lemma wildcard_match_star_cons (p : list ascii) (c : ascii) (s : list ascii) :
  wildcard_match ("*"%char :: p) (c :: s)
  = wildcard_match p (c :: s) || wildcard_match ("*"%char :: p) s.
Proof. reflexivity. Qed.

Lemma wildcard_match_star (p s : list ascii) :
  wildcard_match ("*"%char :: p) s = true
  <-> exists a b : list ascii, s = a ++ b /\ wildcard_match p b = true.
Proof.
  induction s as [| c s IH].
  - rewrite wildcard_match_star_nil, orb_false_r. split.
    + intro H. exists [], []. split; [ reflexivity | exact H ].
    + intros (a & b & Hs & H).
      symmetry in Hs. apply app_eq_nil in Hs as [-> ->]. exact H.
  - rewrite wildcard_match_star_cons, orb_true_iff, IH. split.
    + intros [H | (a & b & -> & H)].
      * exists [], (c :: s). split; [ reflexivity | exact H ].
      * exists (c :: a), b. split; [ reflexivity | exact H ].
    + intros (a & b & Hs & H).
      destruct a as [| x a]; cbn [app] in Hs.
      * left. rewrite Hs. exact H.
      * right. injection Hs as _ ->. exists a, b.
        split; [ reflexivity | exact H ].
Qed.

Lemma wildcard_match_literal (p : list ascii) :
  literal p = true ->
  forall s : list ascii, wildcard_match p s = true <-> s = p.
Proof.
  induction p as [| c p IH]; intros Hlit s.
  - destruct s; cbn; split; congruence.
  - cbn [literal forallb] in Hlit.
    apply andb_true_iff in Hlit as [Hc Hp].
    apply negb_true_iff in Hc.
    cbn [wildcard_match]. rewrite Hc.
    destruct s as [| d s]; [ split; discriminate | ].
    rewrite andb_true_iff, (IH Hp s), Ascii.eqb_eq.
    split; [ intros [-> ->]; reflexivity | intro H; injection H; auto ].
Qed.

(** [*] followed by literal text matches exactly the runs of characters
    that end in that text. *)
Lemma wildcard_match_star_suffix (p s : list ascii) :
  literal p = true ->
  wildcard_match ("*"%char :: p) s = true
  <-> exists a : list ascii, s = a ++ p.
Proof.
  intro Hlit. rewrite wildcard_match_star. split.
  - intros (a & b & -> & H).
    apply (wildcard_match_literal p Hlit) in H. subst b.
    exists a. reflexivity.
  - intros [a ->]. exists a, p.
    split; [ reflexivity | apply (wildcard_match_literal p Hlit); reflexivity ].
Qed.

(** A segment without [*] matches itself only. *)
Lemma segment_match_literal (p s : string) :
  literal (list_ascii_of_string p) = true ->
  segment_match p s = true <-> s = p.
Proof.
  intro Hlit.
  assert (Hw : segment_match p s
               = wildcard_match (list_ascii_of_string p)
                   (list_ascii_of_string s)).
  { destruct p as [| c p]; [ reflexivity | ].
    cbn [list_ascii_of_string literal forallb] in Hlit.
    apply andb_true_iff in Hlit as [Hc _].
    apply negb_true_iff in Hc.
    unfold segment_match. rewrite Hc. reflexivity. }
  rewrite Hw, (wildcard_match_literal _ Hlit). split.
  - apply list_ascii_of_string_inj.
  - intros ->. reflexivity.
Qed.

(** [*] followed by literal text matches the visible names that end in
    that text. *)
Lemma segment_match_star_suffix (lit s : string) :
  literal (list_ascii_of_string lit) = true ->
  segment_match (String "*" lit) s = true
  <-> visible s = true /\ exists a : string, s = (a ++ lit)%string.
Proof.
  intro Hlit.
  unfold segment_match. rewrite Ascii.eqb_refl.
  cbn [list_ascii_of_string].
  rewrite andb_true_iff, (wildcard_match_star_suffix _ _ Hlit).
  split; intros [Hv Ha]; (split; [ exact Hv | ]).
  - destruct Ha as [a Ha].
    exists (string_of_list_ascii a).
    apply list_ascii_of_string_inj.
    rewrite Ha, list_ascii_of_string_app, list_ascii_of_string_of_list_ascii.
    reflexivity.
  - destruct Ha as [a ->].
    exists (list_ascii_of_string a).
    apply list_ascii_of_string_app.
Qed.

(** Whether a name that ends in [.text] is visible is decided by what
    stands before the dot. *)
Lemma visible_stem (a b : string) :
  visible (a ++ String "." b)%string = visible a.
Proof. destruct a; reflexivity. Qed.

Lemma visible_not_hidden (s : string) :
  visible s = true -> negb (hidden s) = true.
Proof. destruct s; [ discriminate | intro H; exact H ]. Qed.

Lemma segments_match_deep_nil (ps : list string) :
  segments_match ("**" :: ps) [] = segments_match ps [] || false.
Proof. reflexivity. Qed.

Lemma segments_match_deep_cons (ps : list string) (s : string)
      (ss : list string) :
  segments_match ("**" :: ps) (s :: ss)
  = segments_match ps (s :: ss)
    || (negb (hidden s) && segments_match ("**" :: ps) ss).
Proof. reflexivity. Qed.

(** [**] stands for a run of directories none of which is hidden. *)
Lemma segments_match_deep (ps ss : list string) :
  segments_match ("**" :: ps) ss = true
  <-> exists dirs rest : list string,
      ss = dirs ++ rest
      /\ forallb (fun d => negb (hidden d)) dirs = true
      /\ segments_match ps rest = true.
Proof.
  induction ss as [| s ss IH].
  - rewrite segments_match_deep_nil, orb_false_r. split.
    + intro H. exists [], []. repeat split; [ exact H ].
    + intros (a & b & Hs & _ & H).
      symmetry in Hs. apply app_eq_nil in Hs as [-> ->]. exact H.
  - rewrite segments_match_deep_cons, orb_true_iff, andb_true_iff, IH. split.
    + intros [H | (Hs & a & b & -> & Ha & H)].
      * exists [], (s :: ss). repeat split; exact H.
      * exists (s :: a), b. split; [ reflexivity | ].
        split; [ | exact H ].
        cbn [forallb]. rewrite Hs, Ha. reflexivity.
    + intros (a & b & Hs & Ha & H).
      destruct a as [| x a]; cbn [app] in Hs.
      * left. rewrite Hs. exact H.
      * right. injection Hs as -> ->.
        cbn [forallb] in Ha. apply andb_true_iff in Ha as [Hx Ha].
        split; [ exact Hx | ].
        exists a, b. repeat split; assumption.
Qed.

(** A segment that is neither [**] nor contains [*] matches itself
    only. *)
Lemma segments_match_literal_head (p : string) (ps : list string)
      (ss : list string) :
  String.eqb p "**" = false ->
  literal (list_ascii_of_string p) = true ->
  segments_match (p :: ps) ss = true
  <-> exists rest : list string,
      ss = p :: rest /\ segments_match ps rest = true.
Proof.
  intros Hdeep Hlit.
  cbn [segments_match]. rewrite Hdeep.
  destruct ss as [| s ss].
  - split; [ discriminate | intros (rest & H & _); discriminate H ].
  - rewrite andb_true_iff, (segment_match_literal _ _ Hlit). split.
    + intros [-> H]. exists ss. split; [ reflexivity | exact H ].
    + intros (rest & Hs & H). injection Hs as -> ->.
      split; [ reflexivity | exact H ].
Qed.

End GlobFacts.

Section ContentPatterns.
Import Glob.

Lemma segments_match_nil (ss : list string) :
  segments_match [] ss = true <-> ss = [].
Proof. destruct ss; cbn; split; congruence. Qed.

Lemma segments_match_cons (p : string) (ps : list string) (s : string)
      (ss : list string) :
  String.eqb p "**" = false ->
  segments_match (p :: ps) (s :: ss)
  = segment_match p s && segments_match ps ss.
Proof. intro H. cbn [segments_match]. rewrite H. reflexivity. Qed.

Lemma segments_match_cons_nil (p : string) (ps : list string) :
  String.eqb p "**" = false -> segments_match (p :: ps) [] = false.
Proof. intro H. cbn [segments_match]. rewrite H. reflexivity. Qed.

(** The file segment [*.ext] matches the names that end in [.ext] and
    have a visible stem. *)
Lemma segments_match_file (ext : string) (ss : list string) :
  literal (list_ascii_of_string ext) = true ->
  segments_match [ String "*" (String "." ext) ] ss = true
  <-> exists name : string,
      visible name = true /\ ss = [ (name ++ "." ++ ext)%string ].
Proof.
  intro Hlit.
  assert (Hdot : literal (list_ascii_of_string (String "." ext)) = true)
    by (cbn [list_ascii_of_string literal forallb]; exact Hlit).
  destruct ss as [| s ss].
  - rewrite segments_match_cons_nil by reflexivity.
    split; [ discriminate | intros (name & _ & H); discriminate H ].
  - rewrite segments_match_cons by reflexivity.
    rewrite andb_true_iff, segments_match_nil,
      (segment_match_star_suffix _ _ Hdot).
    split.
    + intros [[Hv [a ->]] ->].
      exists a. split; [ | reflexivity ].
      rewrite visible_stem in Hv. exact Hv.
    + intros (name & Hv & H). injection H as -> ->.
      split; [ | reflexivity ].
      split; [ | exists name; reflexivity ].
      change (name ++ "." ++ ext)%string with (name ++ String "." ext)%string.
      rewrite visible_stem. exact Hv.
Qed.

(** [./dir/**/*.ext] matches the visible files named [*.ext] at any
    depth under [./dir], below directories that are not hidden. *)
Lemma segments_match_under (dir ext : string) (ss : list string) :
  String.eqb dir "**" = false ->
  literal (list_ascii_of_string dir) = true ->
  literal (list_ascii_of_string ext) = true ->
  segments_match [ "."; dir; "**"; String "*" (String "." ext) ] ss = true
  <-> exists (dirs : list string) (name : string),
      forallb (fun d => negb (hidden d)) dirs = true
      /\ visible name = true
      /\ ss = "." :: dir :: dirs ++ [ (name ++ "." ++ ext)%string ].
Proof.
  intros Hdeep Hdir Hext.
  rewrite (segments_match_literal_head "." _ ss eq_refl eq_refl).
  split.
  - intros (r1 & -> & H).
    apply (segments_match_literal_head dir _ r1 Hdeep Hdir) in H.
    destruct H as (r2 & -> & H).
    apply segments_match_deep in H.
    destruct H as (dirs & rest & -> & Hdirs & H).
    apply (segments_match_file ext rest Hext) in H.
    destruct H as (name & Hname & ->).
    exists dirs, name. repeat split; assumption.
  - intros (dirs & name & Hdirs & Hname & ->).
    eexists. split; [ reflexivity | ].
    apply (segments_match_literal_head dir _ _ Hdeep Hdir).
    eexists. split; [ reflexivity | ].
    apply segments_match_deep.
    exists dirs, [ (name ++ "." ++ ext)%string ].
    split; [ reflexivity | ].
    split; [ exact Hdirs | ].
    apply (segments_match_file ext _ Hext).
    exists name. split; [ exact Hname | reflexivity ].
Qed.

(** A pattern of two literal segments matches one path. *)
Lemma segments_match_file_at_root (file : string) (path : string) :
  String.eqb file "**" = false ->
  literal (list_ascii_of_string file) = true ->
  segments_match [ "."; file ] (split_on "/" path) = true ->
  path = ("./" ++ file)%string.
Proof.
  intros Hdeep Hlit H.
  apply (segments_match_literal_head "." _ _ eq_refl eq_refl) in H.
  destruct H as (r1 & Hs & H).
  apply (segments_match_literal_head file _ _ Hdeep Hlit) in H.
  destruct H as (r2 & -> & H).
  apply segments_match_nil in H. subst r2.
  rewrite <- (join_split_on "/" path), Hs.
  reflexivity.
Qed.

Lemma glob_match_App (path : string) :
  glob_match "./App.{js,jsx,ts,tsx}" path = true
  <-> exists ext : string,
      In ext extensions /\ path = ("./App." ++ ext)%string.
Proof.
  split.
  - intro H.
    change (segments_match [ "."; "App.js" ] (split_on "/" path)
            || (segments_match [ "."; "App.jsx" ] (split_on "/" path)
            || (segments_match [ "."; "App.ts" ] (split_on "/" path)
            || (segments_match [ "."; "App.tsx" ] (split_on "/" path)
            || false))) = true) in H.
    rewrite !orb_true_iff in H.
    destruct H as [H | [H | [H | [H | H]]]]; [ | | | | discriminate H ];
      apply segments_match_file_at_root in H; try reflexivity.
    + exists "js". split; [ cbn; tauto | exact H ].
    + exists "jsx". split; [ cbn; tauto | exact H ].
    + exists "ts". split; [ cbn; tauto | exact H ].
    + exists "tsx". split; [ cbn; tauto | exact H ].
  - intros (ext & Hin & ->).
    cbn [extensions In] in Hin.
    destruct Hin as [<- | [<- | [<- | [<- | []]]]]; reflexivity.
Qed.

Lemma segments_match_under_extensions (dir : string) (ss : list string) :
  String.eqb dir "**" = false ->
  literal (list_ascii_of_string dir) = true ->
  segments_match [ "."; dir; "**"; "*.js" ] ss
  || (segments_match [ "."; dir; "**"; "*.jsx" ] ss
  || (segments_match [ "."; dir; "**"; "*.ts" ] ss
  || (segments_match [ "."; dir; "**"; "*.tsx" ] ss
  || false))) = true
  <-> exists (dirs : list string) (name ext : string),
      In ext extensions
      /\ forallb (fun d => negb (hidden d)) dirs = true
      /\ visible name = true
      /\ ss = "." :: dir :: dirs ++ [ (name ++ "." ++ ext)%string ].
Proof.
  intros Hdeep Hlit.
  rewrite !orb_true_iff.
  rewrite (segments_match_under dir "js" ss Hdeep Hlit eq_refl),
    (segments_match_under dir "jsx" ss Hdeep Hlit eq_refl),
    (segments_match_under dir "ts" ss Hdeep Hlit eq_refl),
    (segments_match_under dir "tsx" ss Hdeep Hlit eq_refl).
  split.
  - intros [H | [H | [H | [H | H]]]]; [ | | | | discriminate H ];
      destruct H as (dirs & name & H).
    + exists dirs, name, "js". split; [ cbn; tauto | exact H ].
    + exists dirs, name, "jsx". split; [ cbn; tauto | exact H ].
    + exists dirs, name, "ts". split; [ cbn; tauto | exact H ].
    + exists dirs, name, "tsx". split; [ cbn; tauto | exact H ].
  - intros (dirs & name & ext & Hin & H).
    cbn [extensions In] in Hin.
    destruct Hin as [<- | [<- | [<- | [<- | []]]]].
    + left. exists dirs, name. exact H.
    + right; left. exists dirs, name. exact H.
    + do 2 right; left. exists dirs, name. exact H.
    + do 3 right; left. exists dirs, name. exact H.
Qed.

Lemma glob_match_app (path : string) :
  glob_match "./app/**/*.{js,jsx,ts,tsx}" path = true
  <-> exists (dirs : list string) (name ext : string),
      In ext extensions
      /\ forallb (fun d => negb (hidden d)) dirs = true
      /\ visible name = true
      /\ split_on "/" path
         = "." :: "app" :: dirs ++ [ (name ++ "." ++ ext)%string ].
Proof.
  exact (segments_match_under_extensions "app" (split_on "/" path)
           eq_refl eq_refl).
Qed.

Lemma glob_match_components (path : string) :
  glob_match "./components/**/*.{js,jsx,ts,tsx}" path = true
  <-> exists (dirs : list string) (name ext : string),
      In ext extensions
      /\ forallb (fun d => negb (hidden d)) dirs = true
      /\ visible name = true
      /\ split_on "/" path
         = "." :: "components" :: dirs ++ [ (name ++ "." ++ ext)%string ].
Proof.
  exact (segments_match_under_extensions "components" (split_on "/" path)
           eq_refl eq_refl).
Qed.

(** A path whose last segment ends in [.ext] ends in [.ext]. *)
Lemma has_extension_of_segments (path : string) (pre : list string)
      (name ext : string) :
  split_on "/" path = pre ++ [ (name ++ "." ++ ext)%string ] ->
  has_extension ext path.
Proof.
  intro H.
  destruct (join_last "/" pre (name ++ "." ++ ext)%string) as [stem Hj].
  exists (stem ++ name)%string.
  rewrite <- (join_split_on "/" path), H, Hj.
  rewrite string_app_assoc. reflexivity.
Qed.

End ContentPatterns.

(** ** What the content patterns cover, and what they leave out *)

Section ContentCoverage.
Import Glob.

Lemma slash_free_app (a b : string) :
  Paths.slash_free (a ++ b)%string
  = Paths.slash_free a && Paths.slash_free b.
Proof.
  induction a as [| c a IH]; cbn; [ reflexivity | ].
  rewrite IH, andb_assoc. reflexivity.
Qed.

Lemma split_on_slash_free (s : string) :
  Paths.slash_free s = true -> split_on "/" s = [ s ].
Proof.
  induction s as [| c s IH]; [ reflexivity | ].
  cbn [Paths.slash_free split_on]. intro H.
  apply andb_true_iff in H as [Hc Hs].
  apply negb_true_iff in Hc. rewrite Hc, (IH Hs). reflexivity.
Qed.

Lemma split_on_segment (a b : string) :
  Paths.slash_free a = true ->
  split_on "/" (a ++ String "/" b)%string = a :: split_on "/" b.
Proof.
  induction a as [| c a IH]; intro H.
  - reflexivity.
  - cbn [Paths.slash_free] in H.
    apply andb_true_iff in H as [Hc Ha].
    apply negb_true_iff in Hc.
    cbn [String.append split_on]. rewrite Hc, (IH Ha). reflexivity.
Qed.

(** Joining names that hold no [/] and splitting again gives the names
    back. *)
Lemma split_on_join (pieces : list string) :
  pieces <> [] ->
  forallb Paths.slash_free pieces = true ->
  split_on "/" (join "/" pieces) = pieces.
Proof.
  induction pieces as [| p ps IH]; intros Hne Hall; [ contradiction | ].
  cbn [forallb] in Hall. apply andb_true_iff in Hall as [Hp Hps].
  destruct ps as [| q qs].
  - cbn [join]. apply split_on_slash_free, Hp.
  - change (join "/" (p :: q :: qs))
      with (p ++ String "/" (join "/" (q :: qs)))%string.
    rewrite (split_on_segment _ _ Hp), IH; [ reflexivity | discriminate | ].
    exact Hps.
Qed.

Lemma extensions_slash_free (ext : string) :
  In ext extensions -> Paths.slash_free ext = true.
Proof.
  cbn [extensions In].
  intros [<- | [<- | [<- | [<- | []]]]]; reflexivity.
Qed.

Lemma split_on_file_under (dir : string) (dirs : list string)
      (name ext : string) :
  Paths.slash_free dir = true ->
  forallb Paths.slash_free dirs = true ->
  Paths.slash_free name = true ->
  In ext extensions ->
  split_on "/" (Paths.file_under dir dirs name ext)
  = "." :: dir :: dirs ++ [ (name ++ "." ++ ext)%string ].
Proof.
  intros Hdir Hdirs Hname Hext.
  unfold Paths.file_under.
  apply split_on_join; [ discriminate | ].
  cbn [forallb]. rewrite Hdir. cbn [Paths.slash_free andb].
  rewrite forallb_app, Hdirs. cbn [forallb andb].
  rewrite !slash_free_app, Hname, (extensions_slash_free ext Hext).
  reflexivity.
Qed.

(** What each pattern demands of the segments of a path it matches. *)
Lemma pattern_segments (pattern path : string) :
  In pattern (patterns Tailwind.content) ->
  glob_match pattern path = true ->
  (pattern = "./App.{js,jsx,ts,tsx}"
   /\ exists ext : string,
       In ext extensions
       /\ split_on "/" path = [ "."; ("App." ++ ext)%string ])
  \/ (pattern = "./app/**/*.{js,jsx,ts,tsx}"
      /\ exists (dirs : list string) (file : string),
          split_on "/" path = "." :: "app" :: dirs ++ [ file ])
  \/ (pattern = "./components/**/*.{js,jsx,ts,tsx}"
      /\ exists (dirs : list string) (file : string),
          split_on "/" path = "." :: "components" :: dirs ++ [ file ]).
Proof.
  intros Hin Hmatch.
  cbn in Hin.
  destruct Hin as [<- | [<- | [<- | []]]].
  - left. split; [ reflexivity | ].
    apply glob_match_App in Hmatch.
    destruct Hmatch as (ext & Hext & ->).
    exists ext. split; [ exact Hext | ].
    cbn [extensions In] in Hext.
    destruct Hext as [<- | [<- | [<- | [<- | []]]]]; reflexivity.
  - right; left. split; [ reflexivity | ].
    apply glob_match_app in Hmatch.
    destruct Hmatch as (dirs & name & ext & _ & _ & _ & H).
    exists dirs, (name ++ "." ++ ext)%string. exact H.
  - right; right. split; [ reflexivity | ].
    apply glob_match_components in Hmatch.
    destruct Hmatch as (dirs & name & ext & _ & _ & _ & H).
    exists dirs, (name ++ "." ++ ext)%string. exact H.
Qed.


Lemma scanned_names_slash_free (names : list string) :
  forallb Paths.scanned_name names = true ->
  forallb Paths.slash_free names = true.
Proof.
  rewrite !forallb_forall. intros H x Hx.
  specialize (H x Hx). apply andb_true_iff in H as [H _]. exact H.
Qed.

Lemma scanned_names_not_hidden (names : list string) :
  forallb Paths.scanned_name names = true ->
  forallb (fun d => negb (hidden d)) names = true.
Proof.
  rewrite !forallb_forall. intros H x Hx.
  specialize (H x Hx). apply andb_true_iff in H as [_ H].
  apply visible_not_hidden, H.
Qed.


(** Every file of scanned names with one of the four extensions below
    [./dir] splits into the segments the [**] pattern asks for. *)
Lemma covered_under (dir : string) (dirs : list string) (name ext : string) :
  Paths.slash_free dir = true ->
  forallb Paths.scanned_name dirs = true ->
  Paths.scanned_name name = true ->
  In ext extensions ->
  exists (dirs' : list string) (name' ext' : string),
    In ext' extensions
    /\ forallb (fun d => negb (hidden d)) dirs' = true
    /\ visible name' = true
    /\ split_on "/" (Paths.file_under dir dirs name ext)
       = "." :: dir :: dirs' ++ [ (name' ++ "." ++ ext')%string ].
Proof.
  intros Hdir Hdirs Hname Hext.
  apply andb_true_iff in Hname as [Hfree Hvis].
  exists dirs, name, ext.
  split; [ exact Hext | ].
  split; [ apply scanned_names_not_hidden, Hdirs | ].
  split; [ exact Hvis | ].
  apply split_on_file_under;
    [ exact Hdir | apply scanned_names_slash_free, Hdirs | exact Hfree
    | exact Hext ].
Qed.

Lemma app_last_not_nil {A : Type} (l : list A) (x : A) : l ++ [ x ] <> [].
Proof. destruct l; discriminate. Qed.

End ContentCoverage.

(** ** The content scan paths *)

(** C6: the [content] field of the exported configuration lists exactly
    three scan paths: the root [App] file, everything under [./app] and
    everything under [./components]; each carries the one brace group
    [js,jsx,ts,tsx] as its extension.  The first matches exactly
    [./App.<ext>]; the other two match only files [<name>.<ext>] below
    their directory (dot files and dot directories are skipped) and
    match every such file whose names the scan can meet; so each
    matches only paths ending in one of the four extensions. *)
Theorem C6_content_scan_paths :
  exists content : Js.value,
    Js.get "content" Tailwind.module_exports = Some content
    /\ content
       = Js.VArray
           (map Js.VString
              [ "./App.{js,jsx,ts,tsx}";
                "./app/**/*.{js,jsx,ts,tsx}";
                "./components/**/*.{js,jsx,ts,tsx}" ])
    /\ List.length (Glob.patterns content) = 3
    /\ map Glob.brace_group (Glob.patterns content)
       = [ Some ("./App.", Glob.extensions, EmptyString);
           Some ("./app/**/*.", Glob.extensions, EmptyString);
           Some ("./components/**/*.", Glob.extensions, EmptyString) ]
    /\ (forall path : string,
          Glob.glob_match "./App.{js,jsx,ts,tsx}" path = true
          <-> exists ext : string,
              In ext Glob.extensions /\ path = ("./App." ++ ext)%string)
    /\ (forall path : string,
          Glob.glob_match "./app/**/*.{js,jsx,ts,tsx}" path = true ->
          exists (dirs : list string) (name ext : string),
            In ext Glob.extensions
            /\ forallb (fun d => negb (Glob.hidden d)) dirs = true
            /\ Glob.visible name = true
            /\ Glob.split_on "/" path
               = "." :: "app" :: dirs ++ [ (name ++ "." ++ ext)%string ])
    /\ (forall (dirs : list string) (name ext : string),
          forallb Paths.scanned_name dirs = true ->
          Paths.scanned_name name = true ->
          In ext Glob.extensions ->
          Glob.glob_match "./app/**/*.{js,jsx,ts,tsx}"
            (Paths.file_under "app" dirs name ext) = true)
    /\ (forall path : string,
          Glob.glob_match "./components/**/*.{js,jsx,ts,tsx}" path = true ->
          exists (dirs : list string) (name ext : string),
            In ext Glob.extensions
            /\ forallb (fun d => negb (Glob.hidden d)) dirs = true
            /\ Glob.visible name = true
            /\ Glob.split_on "/" path
               = "." :: "components" :: dirs
                 ++ [ (name ++ "." ++ ext)%string ])
    /\ (forall (dirs : list string) (name ext : string),
          forallb Paths.scanned_name dirs = true ->
          Paths.scanned_name name = true ->
          In ext Glob.extensions ->
          Glob.glob_match "./components/**/*.{js,jsx,ts,tsx}"
            (Paths.file_under "components" dirs name ext) = true)
    /\ (forall pattern path : string,
          In pattern (Glob.patterns content) ->
          Glob.glob_match pattern path = true ->
          exists ext : string,
            In ext Glob.extensions /\ Glob.has_extension ext path).
Proof.
  exists Tailwind.content.
  split; [ reflexivity | ].
  split; [ reflexivity | ].
  split; [ reflexivity | ].
  split; [ reflexivity | ].
  split; [ exact glob_match_App | ].
  split; [ intros path H; apply glob_match_app, H | ].
  split.
  { intros dirs name ext Hdirs Hname Hext.
    apply glob_match_app.
    apply covered_under; [ reflexivity | assumption .. ]. }
  split; [ intros path H; apply glob_match_components, H | ].
  split.
  { intros dirs name ext Hdirs Hname Hext.
    apply glob_match_components.
    apply covered_under; [ reflexivity | assumption .. ]. }
  intros pattern path Hin Hmatch.
  cbn in Hin.
  destruct Hin as [<- | [<- | [<- | []]]].
  - apply glob_match_App in Hmatch.
    destruct Hmatch as (ext & Hext & ->).
    exists ext. split; [ exact Hext | ].
    exists "./App". reflexivity.
  - apply glob_match_app in Hmatch.
    destruct Hmatch as (dirs & name & ext & Hext & _ & _ & Hsplit).
    exists ext. split; [ exact Hext | ].
    apply (has_extension_of_segments path ("." :: "app" :: dirs) name ext).
    exact Hsplit.
  - apply glob_match_components in Hmatch.
    destruct Hmatch as (dirs & name & ext & Hext & _ & _ & Hsplit).
    exists ext. split; [ exact Hext | ].
    apply (has_extension_of_segments path ("." :: "components" :: dirs)
             name ext).
    exact Hsplit.
Qed.

Lemma C6_content_scan_paths_witness :
  Glob.glob_match "./app/**/*.{js,jsx,ts,tsx}"
    (Paths.file_under "app" [ "(tabs)" ] "index" "tsx") = true
  /\ exists ext : string,
      In ext Glob.extensions
      /\ Glob.has_extension ext "./components/ui/Button.jsx".
Proof.
  destruct C6_content_scan_paths
    as (content & _ & Hcontent & _ & _ & _ & _ & Happ & _ & _ & Hext).
  split.
  - apply Happ.
    + reflexivity.
    + reflexivity.
    + simpl. do 3 right. left. reflexivity.
  - apply (Hext "./components/**/*.{js,jsx,ts,tsx}"
             "./components/ui/Button.jsx").
    + rewrite Hcontent. simpl. do 2 right. left. reflexivity.
    + vm_compute. reflexivity.
Defined.


(** X1: the three content patterns are pairwise disjoint: no path is
    matched by two different patterns, so no file is scanned twice. *)
Theorem content_patterns_disjoint :
  forall pattern1 pattern2 path : string,
    In pattern1 (Glob.patterns Tailwind.content) ->
    In pattern2 (Glob.patterns Tailwind.content) ->
    Glob.glob_match pattern1 path = true ->
    Glob.glob_match pattern2 path = true ->
    pattern1 = pattern2.
Proof.
  intros p1 p2 path Hin1 Hin2 H1 H2.
  destruct (pattern_segments p1 path Hin1 H1)
    as [(-> & ext1 & _ & S1) | [(-> & d1 & f1 & S1) | (-> & d1 & f1 & S1)]];
  destruct (pattern_segments p2 path Hin2 H2)
    as [(-> & ext2 & _ & S2) | [(-> & d2 & f2 & S2) | (-> & d2 & f2 & S2)]];
    try reflexivity; exfalso; rewrite S1 in S2.
  - injection S2 as Hseg Hrest. discriminate Hseg.
  - injection S2 as Hseg Hrest. discriminate Hseg.
  - injection S2 as Hseg Hrest. discriminate Hseg.
  - injection S2 as Hseg Hrest. discriminate Hseg.
  - injection S2 as Hseg Hrest. discriminate Hseg.
  - injection S2 as Hseg Hrest. discriminate Hseg.
Qed.

Lemma content_patterns_disjoint_witness :
  "./app/**/*.{js,jsx,ts,tsx}" = "./app/**/*.{js,jsx,ts,tsx}".
Proof.
  apply (content_patterns_disjoint
           "./app/**/*.{js,jsx,ts,tsx}" "./app/**/*.{js,jsx,ts,tsx}"
           "./app/(tabs)/index.tsx").
  - simpl. right. left. reflexivity.
  - simpl. right. left. reflexivity.
  - vm_compute. reflexivity.
  - vm_compute. reflexivity.
Defined.

(** X2: a file in a directory of the project root other than [app] and
    [components] (such as [lib]) is matched by no content pattern,
    whatever its name and extension. *)
Theorem content_skips_other_directories :
  forall (pattern path dir : string) (rest : list string),
    In pattern (Glob.patterns Tailwind.content) ->
    Glob.split_on "/" path = "." :: dir :: rest ->
    rest <> [] ->
    dir <> "app" ->
    dir <> "components" ->
    Glob.glob_match pattern path = false.
Proof.
  intros pattern path dir rest Hin Hsplit Hrest Happ Hcomp.
  destruct (Glob.glob_match pattern path) eqn:Hmatch; [ exfalso | reflexivity ].
  destruct (pattern_segments pattern path Hin Hmatch)
    as [(_ & ext & _ & S) | [(_ & d & f & S) | (_ & d & f & S)]];
    rewrite Hsplit in S.
  - injection S as _ Hnil. exact (Hrest Hnil).
  - injection S as Hdir _. exact (Happ Hdir).
  - injection S as Hdir _. exact (Hcomp Hdir).
Qed.

Lemma content_skips_other_directories_witness :
  Glob.glob_match "./app/**/*.{js,jsx,ts,tsx}" "./lib/supabase.ts" = false.
Proof.
  apply (content_skips_other_directories
           "./app/**/*.{js,jsx,ts,tsx}" "./lib/supabase.ts" "lib"
           [ "supabase.ts" ]).
  - simpl. right. left. reflexivity.
  - reflexivity.
  - discriminate.
  - discriminate.
  - discriminate.
Defined.

(** X3: every file with one of the four extensions, at any depth under
    [./app] or [./components], is matched by a content pattern when its
    directory names and its file name are not empty, hold no [/] and do
    not start with a dot, whatever other characters they hold. *)
Theorem content_covers_app_and_components :
  forall (dir : string) (dirs : list string) (name ext : string),
    dir = "app" \/ dir = "components" ->
    forallb Paths.scanned_name dirs = true ->
    Paths.scanned_name name = true ->
    In ext Glob.extensions ->
    exists pattern : string,
      In pattern (Glob.patterns Tailwind.content)
      /\ Glob.glob_match pattern (Paths.file_under dir dirs name ext) = true.
Proof.
  intros dir dirs name ext Hdir Hdirs Hname Hext.
  destruct Hdir as [-> | ->].
  - exists "./app/**/*.{js,jsx,ts,tsx}".
    split; [ cbn; tauto | ].
    apply glob_match_app.
    apply covered_under; [ reflexivity | assumption .. ].
  - exists "./components/**/*.{js,jsx,ts,tsx}".
    split; [ cbn; tauto | ].
    apply glob_match_components.
    apply covered_under; [ reflexivity | assumption .. ].
Qed.

Lemma content_covers_app_and_components_witness :
  exists pattern : string,
    In pattern (Glob.patterns Tailwind.content)
    /\ Glob.glob_match pattern
         (Paths.file_under "app" [ "crime" ] "[id]" "tsx") = true.
Proof.
  apply (content_covers_app_and_components "app" [ "crime" ] "[id]" "tsx").
  - left. reflexivity.
  - reflexivity.
  - reflexivity.
  - simpl. do 3 right. left. reflexivity.
Defined.



(** ** The environment sample of the guidance *)

Lemma find_key_absent (name : string) (env : list (string * string)) :
  (forall value : string, ~ In (name, value) env) ->
  find (fun kv => String.eqb name (fst kv)) env = None.
Proof.
  induction env as [| [k v] env IH]; intro Habsent; [ reflexivity | ].
  cbn [find fst].
  destruct (String.eqb_spec name k) as [-> | Hne].
  - exfalso. apply (Habsent v). left. reflexivity.
  - apply IH. intros value Hin. apply (Habsent value). right. exact Hin.
Qed.

Lemma find_key_present (name value : string) (env : list (string * string)) :
  NoDup (map fst env) ->
  In (name, value) env ->
  find (fun kv => String.eqb name (fst kv)) env = Some (name, value).
Proof.
  induction env as [| [k v] env IH]; intros Hnodup Hin; [ contradiction | ].
  cbn [map fst] in Hnodup. inversion Hnodup as [| ? ? Hk Hrest]; subst.
  cbn [find fst].
  destruct Hin as [Heq | Hin].
  - injection Heq as -> ->. rewrite String.eqb_refl. reflexivity.
  - destruct (String.eqb_spec name k) as [-> | Hne].
    + exfalso. apply Hk. apply (in_map fst) in Hin. exact Hin.
    + apply IH; assumption.
Qed.

(** X4: when [EXPO_PUBLIC_SUPABASE_URL] is not set, the sample
    [process.env.EXPO_PUBLIC_SUPABASE_URL!] yields [undefined] and does
    not throw: the non-null assertion checks nothing at run time.  The
    world is left as it was. *)
Theorem sample_supabaseUrl_unset_is_undefined :
  forall w : React.world,
    (forall value : string,
        ~ In ("EXPO_PUBLIC_SUPABASE_URL", value) (React.process_env w)) ->
    Guidance.sample_supabaseUrl w = (React.Returned Js.VUndefined, w).
Proof.
  intros w Habsent.
  unfold Guidance.sample_supabaseUrl, React.bind, React.read_env,
    React.ret, React.non_null.
  rewrite (find_key_absent _ _ Habsent). reflexivity.
Qed.

Lemma sample_supabaseUrl_unset_is_undefined_witness :
  Guidance.sample_supabaseUrl
    {| React.process_env := [ ("EXPO_PUBLIC_SUPABASE_ANON_KEY", "xxx") ];
       React.effects := []; React.channels := []; React.storage := [] |}
  = (React.Returned Js.VUndefined,
     {| React.process_env := [ ("EXPO_PUBLIC_SUPABASE_ANON_KEY", "xxx") ];
        React.effects := []; React.channels := []; React.storage := [] |}).
Proof.
  apply sample_supabaseUrl_unset_is_undefined.
  intros value Hin. simpl in Hin.
  destruct Hin as [Heq | []]. discriminate Heq.
Defined.

(** X5: when the environment binds each variable once and sets
    [EXPO_PUBLIC_SUPABASE_URL], the sample yields that value as a
    string, wherever the binding stands among the others, and leaves the
    world as it was. *)
Theorem sample_supabaseUrl_set_is_value :
  forall (w : React.world) (url : string),
    NoDup (map fst (React.process_env w)) ->
    In ("EXPO_PUBLIC_SUPABASE_URL", url) (React.process_env w) ->
    Guidance.sample_supabaseUrl w = (React.Returned (Js.VString url), w).
Proof.
  intros w url Hnodup Hin.
  unfold Guidance.sample_supabaseUrl, React.bind, React.read_env,
    React.ret, React.non_null.
  rewrite (find_key_present _ _ _ Hnodup Hin). reflexivity.
Qed.

Lemma sample_supabaseUrl_set_is_value_witness :
  Guidance.sample_supabaseUrl
    {| React.process_env :=
         [ ("EXPO_PUBLIC_SUPABASE_ANON_KEY", "xxx");
           ("EXPO_PUBLIC_SUPABASE_URL", "https://xxx.supabase.co") ];
       React.effects := []; React.channels := []; React.storage := [] |}
  = (React.Returned (Js.VString "https://xxx.supabase.co"),
     {| React.process_env :=
          [ ("EXPO_PUBLIC_SUPABASE_ANON_KEY", "xxx");
            ("EXPO_PUBLIC_SUPABASE_URL", "https://xxx.supabase.co") ];
        React.effects := []; React.channels := []; React.storage := [] |}).
Proof.
  apply sample_supabaseUrl_set_is_value.
  - simpl. repeat (apply NoDup_cons; [ simpl; intuition discriminate | ]).
    apply NoDup_nil.
  - simpl. right. left. reflexivity.
Defined.

(** ** The marker list of the guidance *)

Section Markers.
Import Js React Samples.

Lemma prop_object (k : string) (crime : value) (w : world) :
  is_object crime = true -> prop k crime w = (Returned (field k crime), w).
Proof. destruct crime; try discriminate. reflexivity. Qed.

Lemma crime_marker_object (crime : value) (w : world) :
  is_object crime = true ->
  crime_marker crime w = (Returned (marker_of crime), w).
Proof.
  intro Hobj. unfold crime_marker, bind.
  rewrite !(prop_object _ _ _ Hobj). reflexivity.
Qed.

Lemma crime_marker_nullish (crime : value) (w : world) :
  is_nullish crime = true -> crime_marker crime w = (Threw type_error, w).
Proof. destruct crime; try discriminate; reflexivity. Qed.

Lemma array_map_cons {A B : Type} (f : A -> Render B) (x : A)
      (xs : list A) (w : world) :
  array_map f (x :: xs) w
  = match f x w with
    | (Returned y, w1) =>
        match array_map f xs w1 with
        | (Returned ys, w2) => (Returned (y :: ys), w2)
        | (Threw e, w2) => (Threw e, w2)
        end
    | (Threw e, w1) => (Threw e, w1)
    end.
Proof.
  cbn [array_map]. unfold bind, ret.
  destruct (f x w) as [[y | e] w1]; [ | reflexivity ].
  destruct (array_map f xs w1) as [[ys | e] w2]; reflexivity.
Qed.

Lemma crime_markers_objects_run (crimes : list value) (w : world) :
  forallb is_object crimes = true ->
  crime_markers crimes w = (Returned (map marker_of crimes), w).
Proof.
  unfold crime_markers.
  induction crimes as [| crime crimes IH]; intro Hall; [ reflexivity | ].
  cbn [forallb] in Hall. apply andb_true_iff in Hall as [Hobj Hrest].
  rewrite array_map_cons, (crime_marker_object _ _ Hobj), (IH Hrest).
  reflexivity.
Qed.

Lemma conforms_is_object (crime : value) :
  Guidance.conforms Guidance.CrimeRecord crime = true ->
  is_object crime = true.
Proof. destruct crime; try discriminate. reflexivity. Qed.

Lemma marker_of_conforming (crime : value) :
  Guidance.conforms Guidance.CrimeRecord crime = true ->
  well_typed_marker (marker_of crime).
Proof.
  intro H. apply conforms_CrimeRecord in H.
  destruct H as (fields & i & c & la & lo & t & -> & Hi & Hc & Hla & Hlo & _).
  exists i, c, la, lo.
  unfold marker_of, field, get. rewrite Hi, Hc, Hla, Hlo. reflexivity.
Qed.

End Markers.

(** X6: mapped over objects, the marker sample does not throw: it
    returns one [Marker] per crime, in the order of the crimes, each
    built from the crime's [id], [location_lat], [location_lng] and
    [crime_type] (a property the object lacks reads as [undefined]), and
    leaves the world as it was. *)
Theorem crime_markers_of_objects :
  forall (crimes : list Js.value) (w : React.world),
    forallb Samples.is_object crimes = true ->
    exists markers : list React.element,
      Samples.crime_markers crimes w = (React.Returned markers, w)
      /\ List.length markers = List.length crimes
      /\ (forall (i : nat) (crime : Js.value),
            nth_error crimes i = Some crime ->
            nth_error markers i = Some (Samples.marker_of crime)).
Proof.
  intros crimes w Hall.
  exists (map Samples.marker_of crimes).
  split; [ apply crime_markers_objects_run, Hall | ].
  split; [ apply length_map | ].
  intros i crime Hnth. apply map_nth_error, Hnth.
Qed.

Lemma crime_markers_of_objects_witness :
  exists markers : list React.element,
    Samples.crime_markers
      [ Js.VObject [ ("id", Js.VString "a1");
                     ("crime_type", Js.VString "theft") ] ]
      {| React.process_env := []; React.effects := [];
         React.channels := []; React.storage := [] |}
    = (React.Returned markers,
       {| React.process_env := []; React.effects := [];
          React.channels := []; React.storage := [] |})
    /\ List.length markers = 1
    /\ (forall (i : nat) (crime : Js.value),
          nth_error
            [ Js.VObject [ ("id", Js.VString "a1");
                           ("crime_type", Js.VString "theft") ] ] i
          = Some crime ->
          nth_error markers i = Some (Samples.marker_of crime)).
Proof.
  apply (crime_markers_of_objects
           [ Js.VObject [ ("id", Js.VString "a1");
                          ("crime_type", Js.VString "theft") ] ]).
  reflexivity.
Defined.

(** X7: a crime that is [undefined] or [null] makes the marker sample
    throw a [TypeError] when the crimes before it are objects, whatever
    comes after it; no marker list is returned. *)
Theorem crime_markers_nullish_throws :
  forall (before after : list Js.value) (crime : Js.value) (w : React.world),
    forallb Samples.is_object before = true ->
    Samples.is_nullish crime = true ->
    Samples.crime_markers (before ++ crime :: after) w
    = (React.Threw Samples.type_error, w).
Proof.
  intros before after crime w Hbefore Hnull.
  unfold Samples.crime_markers.
  induction before as [| b before IH]; cbn [app].
  - rewrite array_map_cons, (crime_marker_nullish _ _ Hnull). reflexivity.
  - cbn [forallb] in Hbefore. apply andb_true_iff in Hbefore as [Hb Hrest].
    rewrite array_map_cons, (crime_marker_object _ _ Hb), (IH Hrest).
    reflexivity.
Qed.

Lemma crime_markers_nullish_throws_witness :
  Samples.crime_markers
    ([ Js.VObject [ ("id", Js.VString "a1") ] ]
     ++ Js.VNull :: [ Js.VObject [ ("id", Js.VString "a2") ] ])
    {| React.process_env := []; React.effects := [];
       React.channels := []; React.storage := [] |}
  = (React.Threw Samples.type_error,
     {| React.process_env := []; React.effects := [];
        React.channels := []; React.storage := [] |}).
Proof.
  apply crime_markers_nullish_throws; reflexivity.
Defined.

(** X8: for crimes that conform to [CrimeRecord], every marker the
    sample returns is well typed: its key and title are strings and its
    coordinate holds two numbers. *)
Theorem crime_markers_well_typed :
  forall (crimes : list Js.value) (w : React.world),
    forallb (Guidance.conforms Guidance.CrimeRecord) crimes = true ->
    exists markers : list React.element,
      Samples.crime_markers crimes w = (React.Returned markers, w)
      /\ Forall Samples.well_typed_marker markers.
Proof.
  intros crimes w Hall.
  rewrite forallb_forall in Hall.
  exists (map Samples.marker_of crimes). split.
  - apply crime_markers_objects_run, forallb_forall.
    intros crime Hin. apply conforms_is_object, Hall, Hin.
  - apply Forall_forall. intros m Hm.
    apply in_map_iff in Hm as (crime & <- & Hin).
    apply marker_of_conforming, Hall, Hin.
Qed.

Lemma crime_markers_well_typed_witness :
  exists markers : list React.element,
    Samples.crime_markers
      [ Js.VObject
          [ ("id", Js.VString "a1");
            ("crime_type", Js.VString "theft");
            ("location_lat", Js.VNumber (S754_finite false BinNums.xH BinNums.Z0));
            ("location_lng", Js.VNumber (S754_zero false));
            ("incident_date", Js.VString "2025-01-01") ] ]
      {| React.process_env := []; React.effects := [];
         React.channels := []; React.storage := [] |}
    = (React.Returned markers,
       {| React.process_env := []; React.effects := [];
          React.channels := []; React.storage := [] |})
    /\ Forall Samples.well_typed_marker markers.
Proof.
  apply crime_markers_well_typed. reflexivity.
Defined.

(** X9: crimes that conform to [CrimeRecord], so that their [id]s are
    strings, with pairwise distinct [id]s give markers whose keys are
    those strings, in the order of the crimes and pairwise distinct
    (React keeps a string key as it is). *)
Theorem crime_markers_distinct_keys :
  forall (crimes : list Js.value) (w : React.world)
         (markers : list React.element),
    forallb (Guidance.conforms Guidance.CrimeRecord) crimes = true ->
    NoDup (map (Samples.field "id") crimes) ->
    Samples.crime_markers crimes w = (React.Returned markers, w) ->
    exists keys : list string,
      map Samples.marker_key markers = map Some keys
      /\ map (Samples.field "id") crimes = map Js.VString keys
      /\ NoDup keys.
Proof.
  intros crimes w markers Hall Hids Hrun.
  rewrite forallb_forall in Hall.
  rewrite (crime_markers_objects_run crimes w) in Hrun.
  2:{ apply forallb_forall. intros crime Hin.
      apply conforms_is_object, Hall, Hin. }
  injection Hrun as <-.
  assert (Hkeys : exists keys : list string,
             map (Samples.field "id") crimes = map Js.VString keys
             /\ map Samples.marker_key (map Samples.marker_of crimes)
                = map Some keys).
  { clear Hids. induction crimes as [| crime crimes IH].
    - exists []. split; reflexivity.
    - destruct IH as (keys & Hk1 & Hk2).
      { intros x Hx. apply Hall. right. exact Hx. }
      assert (Hc : Guidance.conforms Guidance.CrimeRecord crime = true)
        by (apply Hall; left; reflexivity).
      apply conforms_CrimeRecord in Hc.
      destruct Hc as (fields & i & c & la & lo & t & -> & Hi & _).
      exists (i :: keys). cbn [map]. rewrite Hk1, Hk2.
      unfold Samples.marker_key, Samples.marker_of, Samples.field, Js.get.
      cbn [React.attrs_of Js.lookup String.eqb Ascii.eqb Bool.eqb].
      rewrite Hi. split; reflexivity. }
  destruct Hkeys as (keys & Hk1 & Hk2).
  exists keys. split; [ exact Hk2 | ]. split; [ exact Hk1 | ].
  rewrite Hk1 in Hids. apply NoDup_map_inv in Hids. exact Hids.
Qed.

Lemma crime_markers_distinct_keys_witness :
  exists keys : list string,
    map Samples.marker_key
      [ Samples.marker_of
          (Js.VObject
             [ ("id", Js.VString "a1");
               ("crime_type", Js.VString "theft");
               ("location_lat", Js.VNumber (S754_zero false));
               ("location_lng", Js.VNumber (S754_zero false));
               ("incident_date", Js.VString "2025-01-01") ]);
        Samples.marker_of
          (Js.VObject
             [ ("id", Js.VString "a2");
               ("crime_type", Js.VString "theft");
               ("location_lat", Js.VNumber (S754_zero false));
               ("location_lng", Js.VNumber (S754_zero false));
               ("incident_date", Js.VString "2025-01-02") ]) ]
    = map Some keys
    /\ map (Samples.field "id")
         [ Js.VObject
             [ ("id", Js.VString "a1");
               ("crime_type", Js.VString "theft");
               ("location_lat", Js.VNumber (S754_zero false));
               ("location_lng", Js.VNumber (S754_zero false));
               ("incident_date", Js.VString "2025-01-01") ];
           Js.VObject
             [ ("id", Js.VString "a2");
               ("crime_type", Js.VString "theft");
               ("location_lat", Js.VNumber (S754_zero false));
               ("location_lng", Js.VNumber (S754_zero false));
               ("incident_date", Js.VString "2025-01-02") ] ]
       = map Js.VString keys
    /\ NoDup keys.
Proof.
  apply (crime_markers_distinct_keys
           [ Js.VObject
               [ ("id", Js.VString "a1");
                 ("crime_type", Js.VString "theft");
                 ("location_lat", Js.VNumber (S754_zero false));
                 ("location_lng", Js.VNumber (S754_zero false));
                 ("incident_date", Js.VString "2025-01-01") ];
             Js.VObject
               [ ("id", Js.VString "a2");
                 ("crime_type", Js.VString "theft");
                 ("location_lat", Js.VNumber (S754_zero false));
                 ("location_lng", Js.VNumber (S754_zero false));
                 ("incident_date", Js.VString "2025-01-02") ] ]
           {| React.process_env := []; React.effects := [];
              React.channels := []; React.storage := [] |}).
  - reflexivity.
  - simpl. repeat (apply NoDup_cons; [ simpl; intuition discriminate | ]).
    apply NoDup_nil.
  - reflexivity.
Defined.

(** ** The loading and error sample of the guidance *)

Section Loading.
Import Js React Samples.

Lemma load_failed (q : settled) (err : thrown) (st : screen_state) :
  failed_with q err ->
  load q st
  = {| crimes := crimes st;
       isLoading := false;
       error_state := Some (error_text err) |}.
Proof.
  intros [-> | (Htrue & d & ->)]; unfold load, try_block; cbn.
  - reflexivity.
  - rewrite Htrue. reflexivity.
Qed.

Lemma load_succeeded (q : settled) (d : value) (st : screen_state) :
  succeeded_with q d ->
  load q st
  = {| crimes := d; isLoading := false; error_state := error_state st |}.
Proof.
  intros [-> | (e & Hfalse & ->)]; unfold load, try_block; cbn.
  - reflexivity.
  - rewrite Hfalse. reflexivity.
Qed.

(** A settled query has succeeded or failed. *)
Lemma settled_cases (q : settled) :
  (exists d : value, succeeded_with q d)
  \/ (exists err : thrown, failed_with q err).
Proof.
  destruct q as [[d [e |]] | reason].
  - destruct (thrown_truthy e) eqn:He.
    + right. exists e. right. split; [ exact He | ]. exists d. reflexivity.
    + left. exists d. right. exists e. split; [ exact He | reflexivity ].
  - left. exists d. left. reflexivity.
  - right. exists reason. left. reflexivity.
Qed.

End Loading.

(** X10: whatever the query settles to and whatever the state before,
    the state the [try]/[catch]/[finally] leaves has [isLoading] false,
    so the pass that next reads that state does not return the loading
    indicator.  The pass that starts from the initial state itself
    returns the indicator: its early returns read the [isLoading] bound
    before the query was awaited. *)
Theorem load_clears_loading :
  forall (q : Samples.settled) (st : Samples.screen_state),
    Samples.isLoading (snd (Samples.pass q st)) = false
    /\ (forall q' : Samples.settled,
          fst (Samples.pass q' (snd (Samples.pass q st)))
          <> Some (React.jsx (React.Host "ActivityIndicator")
                     [ ("className", Js.VString "flex-1") ] []))
    /\ (forall crimes0 : Js.value,
          fst (Samples.pass q (Samples.initial_state crimes0))
          = Some (React.jsx (React.Host "ActivityIndicator")
                    [ ("className", Js.VString "flex-1") ] [])).
Proof.
  intros q st.
  cbn [Samples.pass fst snd].
  assert (Hload : Samples.isLoading (Samples.load q st) = false).
  { destruct (settled_cases q) as [[d H] | [err H]].
    - rewrite (load_succeeded q d st H). reflexivity.
    - rewrite (load_failed q err st H). reflexivity. }
  split; [ exact Hload | ].
  split; [ | intro crimes0; reflexivity ].
  intros _.
  unfold Samples.view. rewrite Hload.
  destruct (Samples.error_state (Samples.load q st)) as [message |];
    [ destruct (Samples.truthy message) | ]; discriminate.
Qed.

(** X11: when the query fails (it is rejected, or resolves with an
    [error] that counts as true), [crimes] keeps its earlier value and
    the error state becomes the message of the [Error], or the text
    [An error occurred] when what was thrown is not an [Error]. *)
Theorem load_failure_sets_error :
  forall (q : Samples.settled) (err : Samples.thrown)
         (st : Samples.screen_state),
    Samples.failed_with q err ->
    Samples.crimes (Samples.load q st) = Samples.crimes st
    /\ Samples.error_state (Samples.load q st)
       = Some match err with
              | Samples.ErrorObject message => message
              | Samples.NotAnError _ => "An error occurred"
              end.
Proof.
  intros q err st H.
  rewrite (load_failed q err st H).
  destruct err; split; reflexivity.
Qed.

Lemma load_failure_sets_error_witness :
  Samples.crimes
    (Samples.load (Samples.Rejected (Samples.NotAnError (Js.VString "offline")))
       (Samples.initial_state (Js.VArray [])))
  = Samples.crimes (Samples.initial_state (Js.VArray []))
  /\ Samples.error_state
       (Samples.load
          (Samples.Rejected (Samples.NotAnError (Js.VString "offline")))
          (Samples.initial_state (Js.VArray [])))
     = Some "An error occurred".
Proof.
  apply (load_failure_sets_error
           (Samples.Rejected (Samples.NotAnError (Js.VString "offline")))
           (Samples.NotAnError (Js.VString "offline"))).
  left. reflexivity.
Defined.

(** X12: when the query succeeds, the state left has [crimes] set to
    the [data] of the response and the error state as it was; after a
    success from the initial state, the next pass takes neither early
    return. *)
Theorem load_success_sets_crimes :
  forall (q : Samples.settled) (d : Js.value) (st : Samples.screen_state),
    Samples.succeeded_with q d ->
    Samples.crimes (Samples.load q st) = d
    /\ Samples.error_state (Samples.load q st) = Samples.error_state st
    /\ forall (crimes0 : Js.value) (q' : Samples.settled),
        fst (Samples.pass q'
               (snd (Samples.pass q (Samples.initial_state crimes0))))
        = None.
Proof.
  intros q d st H.
  split; [ rewrite (load_succeeded q d st H); reflexivity | ].
  split; [ rewrite (load_succeeded q d st H); reflexivity | ].
  intros crimes0 q'. cbn [Samples.pass fst snd].
  rewrite (load_succeeded q d _ H). reflexivity.
Qed.

Lemma load_success_sets_crimes_witness :
  Samples.crimes
    (Samples.load
       (Samples.Fulfilled
          {| Samples.data := Js.VArray []; Samples.error := None |})
       (Samples.initial_state Js.VNull))
  = Js.VArray []
  /\ Samples.error_state
       (Samples.load
          (Samples.Fulfilled
             {| Samples.data := Js.VArray []; Samples.error := None |})
          (Samples.initial_state Js.VNull))
     = Samples.error_state (Samples.initial_state Js.VNull)
  /\ forall (crimes0 : Js.value) (q' : Samples.settled),
      fst (Samples.pass q'
             (snd (Samples.pass
                     (Samples.Fulfilled
                        {| Samples.data := Js.VArray [];
                           Samples.error := None |})
                     (Samples.initial_state crimes0))))
      = None.
Proof.
  apply (load_success_sets_crimes
           (Samples.Fulfilled
              {| Samples.data := Js.VArray []; Samples.error := None |})
           (Js.VArray [])).
  left. reflexivity.
Defined.

(** X13: a failure whose [Error] carries an empty message is not shown
    by the pass that follows it: the state left has the empty string as
    its error, which counts as false, and [isLoading] false, so the next
    pass takes neither early return, although [crimes] was not
    updated. *)
Theorem load_empty_message_not_shown :
  forall (q : Samples.settled) (st : Samples.screen_state),
    Samples.failed_with q (Samples.ErrorObject EmptyString) ->
    Samples.error_state (Samples.load q st) = Some EmptyString
    /\ Samples.crimes (Samples.load q st) = Samples.crimes st
    /\ forall q' : Samples.settled,
        fst (Samples.pass q' (snd (Samples.pass q st))) = None.
Proof.
  intros q st H.
  cbn [Samples.pass fst snd].
  rewrite (load_failed q _ st H).
  repeat split.
Qed.

Lemma load_empty_message_not_shown_witness :
  Samples.error_state
    (Samples.load (Samples.Rejected (Samples.ErrorObject EmptyString))
       (Samples.initial_state Js.VNull)) = Some EmptyString
  /\ Samples.crimes
       (Samples.load (Samples.Rejected (Samples.ErrorObject EmptyString))
          (Samples.initial_state Js.VNull))
     = Samples.crimes (Samples.initial_state Js.VNull)
  /\ forall q' : Samples.settled,
      fst (Samples.pass q'
             (snd (Samples.pass
                     (Samples.Rejected (Samples.ErrorObject EmptyString))
                     (Samples.initial_state Js.VNull)))) = None.
Proof.
  apply load_empty_message_not_shown.
  left. reflexivity.
Defined.

(** X14: a success does not clear an earlier error: after a failure
    with a non-empty text, running the sample again on a query that
    succeeds updates [crimes] and still shows the error of the first
    run. *)
Theorem load_success_keeps_earlier_error :
  forall (q1 q2 : Samples.settled) (err : Samples.thrown) (d : Js.value)
         (st : Samples.screen_state),
    Samples.failed_with q1 err ->
    Samples.truthy (Samples.error_text err) = true ->
    Samples.succeeded_with q2 d ->
    Samples.crimes (Samples.load q2 (Samples.load q1 st)) = d
    /\ Samples.view (Samples.load q2 (Samples.load q1 st))
       = Some (React.jsx (React.Host "ErrorMessage")
                 [ ("message", Js.VString (Samples.error_text err)) ] []).
Proof.
  intros q1 q2 err d st H1 Htext H2.
  rewrite (load_failed q1 err st H1), (load_succeeded q2 d _ H2).
  split; [ reflexivity | ].
  unfold Samples.view. cbn [Samples.isLoading Samples.error_state].
  rewrite Htext. reflexivity.
Qed.

Lemma load_success_keeps_earlier_error_witness :
  Samples.crimes
    (Samples.load
       (Samples.Fulfilled
          {| Samples.data := Js.VArray []; Samples.error := None |})
       (Samples.load (Samples.Rejected (Samples.ErrorObject "timeout"))
          (Samples.initial_state Js.VNull)))
  = Js.VArray []
  /\ Samples.view
       (Samples.load
          (Samples.Fulfilled
             {| Samples.data := Js.VArray []; Samples.error := None |})
          (Samples.load (Samples.Rejected (Samples.ErrorObject "timeout"))
             (Samples.initial_state Js.VNull)))
     = Some (React.jsx (React.Host "ErrorMessage")
               [ ("message",
                   Js.VString
                     (Samples.error_text (Samples.ErrorObject "timeout"))) ]
               []).
Proof.
  apply (load_success_keeps_earlier_error
           (Samples.Rejected (Samples.ErrorObject "timeout"))
           (Samples.Fulfilled
              {| Samples.data := Js.VArray []; Samples.error := None |})
           (Samples.ErrorObject "timeout") (Js.VArray [])).
  - left. reflexivity.
  - reflexivity.
  - left. reflexivity.
Defined.
